(** * Biosimilar Intelligence Console: the search endpoint and the result view

    A shallow embedding of
    - [src/app/api/search/route.ts]: the [POST] handler of [/api/search];
    - [src/app/page.tsx]: the [filteredResults] memo of [Home], the
      [EMPTY_FILTERS] constant and the newsletter preview table;
    - the news pipeline [gatherNews] of [@/lib/news], whose code is not among
      the sources and is modelled from the design document (module [News]).

    JavaScript strings are sequences of UTF-16 code units, JSON values are an
    inductive type, and the handler runs in a small exception monad that also
    records the calls it makes. *)

From Stdlib Require Import List ZArith NArith String Ascii Bool Lia Arith.
Import ListNotations.

Set Implicit Arguments.
Set Warnings "-register-all".

(* ===================================================================== *)
(** ** JavaScript strings *)
(* ===================================================================== *)

Module JsString.

(** A code unit is a 16-bit number; a string is a list of code units. *)
Definition code_unit := N.
Definition jsstring := list code_unit.

(** String literals of the source, written with ASCII characters. *)
Definition lit (s : string) : jsstring :=
  map N_of_ascii (list_ascii_of_string s).

(** [a === b] on strings. *)
Fixpoint jseqb (a b : jsstring) : bool :=
  match a, b with
  | [], [] => true
  | x :: a', y :: b' => N.eqb x y && jseqb a' b'
  | _, _ => false
  end.

(** ECMAScript [WhiteSpace] and [LineTerminator] code points, the ones
    [String.prototype.trim] strips.  All of them lie in the basic plane, so
    the test is per code unit. *)
Definition isWhiteSpace (c : code_unit) : bool :=
  (  N.eqb c 0x0009 || N.eqb c 0x000A || N.eqb c 0x000B || N.eqb c 0x000C
  || N.eqb c 0x000D || N.eqb c 0x0020 || N.eqb c 0x00A0 || N.eqb c 0x1680
  || (N.leb 0x2000 c && N.leb c 0x200A)
  || N.eqb c 0x2028 || N.eqb c 0x2029 || N.eqb c 0x202F || N.eqb c 0x205F
  || N.eqb c 0x3000 || N.eqb c 0xFEFF)%bool.

(** [s.trimStart()]. *)
Fixpoint trimStart (s : jsstring) : jsstring :=
  match s with
  | [] => []
  | c :: s' => if isWhiteSpace c then trimStart s' else s
  end.

(** [s.trimEnd()]. *)
Definition trimEnd (s : jsstring) : jsstring := rev (trimStart (rev s)).

(** [s.trim()]. *)
Definition trim (s : jsstring) : jsstring := trimEnd (trimStart s).

(** [s.length]. *)
Definition jslength (s : jsstring) : Z := Z.of_nat (List.length s).

(** A string is blank when it is empty or made of white space only. *)
Definition blank (s : jsstring) : bool := forallb isWhiteSpace s.

(** [prefix.length <= s.length] and [s] starts with [prefix]. *)
Fixpoint startsWith (s prefix : jsstring) : bool :=
  match prefix, s with
  | [], _ => true
  | p :: prefix', c :: s' => N.eqb p c && startsWith s' prefix'
  | _ :: _, [] => false
  end.

(** [haystack.includes(needle)]: [needle] occurs as a substring. *)
Fixpoint includes (haystack needle : jsstring) : bool :=
  startsWith haystack needle
  || match haystack with
     | [] => false
     | _ :: rest => includes rest needle
     end.

(** [xs.includes(x)] on an array of strings. *)
Definition arrayIncludes (xs : list jsstring) (x : jsstring) : bool :=
  existsb (jseqb x) xs.

(** [xs.join(sep)]. *)
Fixpoint join (sep : jsstring) (xs : list jsstring) : jsstring :=
  match xs with
  | [] => []
  | [x] => x
  | x :: rest => x ++ sep ++ join sep rest
  end.

End JsString.

Import JsString.

(* ===================================================================== *)
(** ** The shared types of [@/lib/types] *)
(* ===================================================================== *)

Module Types.

(** Modelled from the spec: the type declarations of [@/lib/types], which
    are not among the sources.  The fields are those of section 3 of the
    design document, spelled as [page.tsx] and [route.ts] use them; an
    optional field is an [option]. *)
Record KeywordSourceRow := {
  keyword : jsstring;
  row_sopCategory : option jsstring;
  row_businessCategory : option jsstring;
  companies : option (list jsstring)
}.

Record CompanyTarget := {
  target_id : jsstring;
  label : jsstring;
  url : jsstring
}.

Inductive Preset := P24h | P3d | P7d | P30d.

Inductive TimeRangeOption :=
| PresetRange (preset : Preset)
| CustomRange (from to : jsstring).

Record ConsolidatedNewsItem := {
  id : jsstring;
  title : jsstring;
  source : jsstring;
  item_url : jsstring;
  publishedAt : jsstring;
  summary : jsstring;
  authenticScore : Z;
  marketImpactScore : Z;
  keywordMatches : list jsstring;
  companyMatches : list jsstring;
  sopCategory : option jsstring;
  businessCategory : option jsstring
}.

Record SearchPayload := {
  keywords : list KeywordSourceRow;
  companyTargets : list CompanyTarget;
  timeRange : TimeRangeOption;
  maxItems : option Z
}.

End Types.

Import Types.

(* ===================================================================== *)
(** ** JSON values and the handler's effects *)
(* ===================================================================== *)

Module Json.

(** What [JSON.parse] produces.  An object is the list of its own
    properties, one entry per key.  Numbers are carried as integers; the
    handler passes them on and never computes with one. *)
Inductive json :=
| JNull
| JBool (b : bool)
| JNumber (n : Z)
| JString (s : jsstring)
| JArray (items : list json)
| JObject (fields : list (jsstring * json)).

(** A JavaScript value read from parsed JSON: [None] is [undefined]. *)
Definition value := option json.

Fixpoint assoc (k : jsstring) (fields : list (jsstring * json)) : value :=
  match fields with
  | [] => None
  | (k', v) :: rest => if jseqb k k' then Some v else assoc k rest
  end.

(** [a ?? b]. *)
Definition nullish (a : value) (b : json) : json :=
  match a with
  | None | Some JNull => b
  | Some v => v
  end.

(** What a [throw] carries to the [catch]: the two errors the engine raises
    inside the handler, and whatever the pipeline rejects with, its message
    and stack included. *)
Inductive exn :=
| SyntaxError
| TypeError
| PipelineError (detail : jsstring).

Inductive outcome (A : Type) :=
| Returned (a : A)
| Thrown (e : exn).
Arguments Thrown {A} e.

(** The effects of a handler run that an observer sees. *)
Inductive event :=
| GatherNews (keywords companyTargets : list json) (timeRange : value)
             (maxItems : json)
| ConsoleError (message : jsstring) (error : exn).

(** Computations that may throw and that append to the trace of events. *)
Definition M (A : Type) := list event -> outcome A * list event.

Definition ret {A} (a : A) : M A := fun tr => (Returned a, tr).

Definition throw {A} (e : exn) : M A := fun tr => (Thrown e, tr).

Definition bind {A B} (m : M A) (k : A -> M B) : M B :=
  fun tr =>
    match m tr with
    | (Returned a, tr') => k a tr'
    | (Thrown e, tr') => (Thrown e, tr')
    end.

Definition emit (ev : event) : M unit := fun tr => (Returned tt, tr ++ [ev]).

(** [try { body } catch (error) { handler }]. *)
Definition try_catch {A} (body : M A) (handler : exn -> M A) : M A :=
  fun tr =>
    match body tr with
    | (Returned a, tr') => (Returned a, tr')
    | (Thrown e, tr') => handler e tr'
    end.

Declare Scope js_scope.
Delimit Scope js_scope with js.
Notation "x <- m ;; k" := (bind m (fun x => k))
  (at level 61, m at next level, right associativity) : js_scope.
Notation "m ;;; k" := (bind m (fun _ => k))
  (at level 61, right associativity) : js_scope.

Local Open Scope js_scope.

(** [v.k] for a property name [k] that no prototype defines: reading from
    [undefined] or [null] throws, an object yields its own property, any
    other value yields [undefined]. *)
Definition getProp (v : value) (k : jsstring) : M value :=
  match v with
  | None | Some JNull => throw TypeError
  | Some (JObject fields) => ret (assoc k fields)
  | Some _ => ret None
  end.

(** [v.trim()]: only a string has a callable [trim]. *)
Definition String_trim (v : value) : M jsstring :=
  match v with
  | Some (JString s) => ret (trim s)
  | _ => throw TypeError
  end.

(** The loop of [Array.prototype.filter]: the callback runs on each element
    in turn and the first throw ends the loop. *)
Fixpoint filterM (cb : json -> M bool) (items : list json) : M (list json) :=
  match items with
  | [] => ret []
  | x :: rest =>
      keep <- cb x ;;
      kept <- filterM cb rest ;;
      ret (if keep then x :: kept else kept)
  end.

(** [v.filter(cb)]: only an array has a callable [filter]. *)
Definition Array_filter (v : value) (cb : json -> M bool) : M (list json) :=
  match v with
  | Some (JArray items) => filterM cb items
  | _ => throw TypeError
  end.

End Json.

Import Json.
Local Open Scope js_scope.

(* ===================================================================== *)
(** ** [route.ts]: the [POST] handler of [/api/search] *)
(* ===================================================================== *)

Module Route.

(** A request, as far as the handler looks at it: what [request.json()]
    resolves to, or the error it rejects with. *)
Record Request := { request_json : outcome json }.

Inductive ResponseBody :=
| Results (results : list ConsolidatedNewsItem)
| Error (error : jsstring).

Record Response := { status : Z; body : ResponseBody }.

(** [NextResponse.json(body, init)]: the status is 200 unless [init] sets it. *)
Definition NextResponse_json (b : ResponseBody) (init : option Z) : Response :=
  {| status := match init with Some s => s | None => 200 end; body := b |}.

(** [await request.json()]. *)
Definition await_json (request : Request) : M value :=
  match request_json request with
  | Returned j => ret (Some j)
  | Thrown e => throw e
  end.

(** [(row) => row.field.trim().length > 0], the callback of both filters. *)
Definition nonBlank (field : jsstring) (row : json) : M bool :=
  text <- getProp (Some row) field ;;
  trimmed <- String_trim text ;;
  ret (0 <? jslength trimmed)%Z.

Definition failure_message : jsstring := lit "Unable to gather news results.".

Section Handler.

(** The pipeline of [@/lib/news]: it resolves to a result list or rejects.
    The handler is stated for any such function. *)
Variable gatherNews :
  list json -> list json -> value -> json -> outcome (list ConsolidatedNewsItem).

(** [await gatherNews(keywords, companyTargets, timeRange, maxItems)]: the
    call is recorded, then its outcome is the pipeline's. *)
Definition await_gatherNews (kws targets : list json) (range : value)
    (cap : json) : M (list ConsolidatedNewsItem) :=
  emit (GatherNews kws targets range cap) ;;;
  match gatherNews kws targets range cap with
  | Returned rs => ret rs
  | Thrown e => throw e
  end.

Definition POST (request : Request) : M Response :=
  try_catch
    (payload <- await_json request ;;
     keywords <- getProp payload (lit "keywords") ;;
     kws <- Array_filter keywords (nonBlank (lit "keyword")) ;;
     companyTargets <- getProp payload (lit "companyTargets") ;;
     targets <- Array_filter companyTargets (nonBlank (lit "url")) ;;
     timeRange <- getProp payload (lit "timeRange") ;;
     maxItems <- getProp payload (lit "maxItems") ;;
     results <- await_gatherNews kws targets timeRange
                  (nullish maxItems (JNumber 100)) ;;
     ret (NextResponse_json (Results results) None))
    (fun error =>
       emit (ConsoleError (lit "Failed to run search") error) ;;;
       ret (NextResponse_json (Error failure_message) (Some 500%Z))).

(** A run of the handler from an empty trace. *)
Definition run_POST (request : Request) : outcome Response * list event :=
  POST request [].

End Handler.

(** The calls to the pipeline among the events of a run, with the
    arguments of each. *)
Record Call := {
  call_keywords : list json;
  call_companyTargets : list json;
  call_timeRange : value;
  call_maxItems : json
}.

Fixpoint pipeline_calls (tr : list event) : list Call :=
  match tr with
  | [] => []
  | GatherNews kws targets range cap :: rest =>
      {| call_keywords := kws; call_companyTargets := targets;
         call_timeRange := range; call_maxItems := cap |}
      :: pipeline_calls rest
  | ConsoleError _ _ :: rest => pipeline_calls rest
  end.

(** *** The body the client sends: [JSON.stringify] of a [SearchPayload]

    [handleSearch] of [page.tsx] posts
    [JSON.stringify({ keywords, companyTargets, timeRange, maxItems })];
    a property whose value is [undefined] is left out. *)

Definition optional (k : jsstring) (v : option json) : list (jsstring * json) :=
  match v with
  | Some j => [(k, j)]
  | None => []
  end.

Definition json_of_KeywordSourceRow (row : KeywordSourceRow) : json :=
  JObject
    ((lit "keyword", JString (keyword row))
     :: optional (lit "sopCategory") (option_map JString (row_sopCategory row))
     ++ optional (lit "businessCategory")
          (option_map JString (row_businessCategory row))
     ++ optional (lit "companies")
          (option_map (fun cs => JArray (map JString cs)) (companies row))).

Definition json_of_CompanyTarget (target : CompanyTarget) : json :=
  JObject
    [ (lit "id", JString (target_id target));
      (lit "label", JString (label target));
      (lit "url", JString (url target)) ].

Definition json_of_Preset (p : Preset) : json :=
  JString (lit match p with
               | P24h => "24h" | P3d => "3d" | P7d => "7d" | P30d => "30d"
               end).

Definition json_of_TimeRangeOption (range : TimeRangeOption) : json :=
  match range with
  | PresetRange p => JObject [ (lit "preset", json_of_Preset p) ]
  | CustomRange from to =>
      JObject [ (lit "preset", JString (lit "custom"));
                (lit "from", JString from);
                (lit "to", JString to) ]
  end.

Definition json_of_SearchPayload (p : SearchPayload) : json :=
  JObject
    ([ (lit "keywords", JArray (map json_of_KeywordSourceRow (keywords p)));
       (lit "companyTargets", JArray (map json_of_CompanyTarget (companyTargets p)));
       (lit "timeRange", json_of_TimeRangeOption (timeRange p)) ]
     ++ optional (lit "maxItems") (option_map JNumber (maxItems p))).

(** A request whose body is a well-typed [SearchPayload]. *)
Definition request_of (p : SearchPayload) : Request :=
  {| request_json := Returned (json_of_SearchPayload p) |}.

(** The rows and targets of a body that are not blank. *)
Definition nonBlankKeywords (p : SearchPayload) : list KeywordSourceRow :=
  filter (fun kw => negb (blank (keyword kw))) (keywords p).

Definition nonBlankTargets (p : SearchPayload) : list CompanyTarget :=
  filter (fun target => negb (blank (url target))) (companyTargets p).

(** The arguments of the one pipeline call made for a well-typed body. *)
Definition expected_call (p : SearchPayload) : event :=
  GatherNews
    (map json_of_KeywordSourceRow (nonBlankKeywords p))
    (map json_of_CompanyTarget (nonBlankTargets p))
    (Some (json_of_TimeRangeOption (timeRange p)))
    (JNumber (match maxItems p with Some n => n | None => 100%Z end)).

(** What the [maxItems] property of a body can be: absent, [null] (which
    [JSON.stringify] writes for a number that is not finite), or a number. *)
Inductive MaxItemsField :=
| MaxItemsAbsent
| MaxItemsNull
| MaxItemsNumber (n : Z).

Definition json_of_MaxItemsField (field : MaxItemsField)
    : list (jsstring * json) :=
  match field with
  | MaxItemsAbsent => []
  | MaxItemsNull => [ (lit "maxItems", JNull) ]
  | MaxItemsNumber n => [ (lit "maxItems", JNumber n) ]
  end.

(** The body of a search request with any of the three. *)
Definition searchRequestBody (kws : list KeywordSourceRow)
    (tgs : list CompanyTarget) (range : TimeRangeOption)
    (field : MaxItemsField) : json :=
  JObject
    ([ (lit "keywords", JArray (map json_of_KeywordSourceRow kws));
       (lit "companyTargets", JArray (map json_of_CompanyTarget tgs));
       (lit "timeRange", json_of_TimeRangeOption range) ]
     ++ json_of_MaxItemsField field).

Definition field_of_maxItems (m : option Z) : MaxItemsField :=
  match m with
  | Some n => MaxItemsNumber n
  | None => MaxItemsAbsent
  end.

(** Two pipelines and two bodies to run the handler on. *)
Definition noNews : list json -> list json -> value -> json
    -> outcome (list ConsolidatedNewsItem) :=
  fun _ _ _ _ => Returned [].

Definition rejecting : list json -> list json -> value -> json
    -> outcome (list ConsolidatedNewsItem) :=
  fun _ _ _ _ => Thrown (PipelineError (lit "validation: no keywords")).

Definition zeroCapPayload : SearchPayload :=
  {| keywords :=
       [ {| keyword := lit "biosimilar approval"; row_sopCategory := None;
            row_businessCategory := None; companies := None |} ];
     companyTargets :=
       [ {| target_id := lit "t1"; label := lit "Amgen";
            url := lit "https://amgen.com" |} ];
     timeRange := PresetRange P7d;
     maxItems := Some 0%Z |}.

Definition invalidPayload : SearchPayload :=
  {| keywords := [];
     companyTargets := [];
     timeRange := CustomRange (lit "2024-02-01T00:00") (lit "2024-01-01T00:00");
     maxItems := Some 5%Z |}.

End Route.

(* ===================================================================== *)
(** ** [page.tsx]: the result filter and the newsletter preview of [Home] *)
(* ===================================================================== *)

Module Page.

Inductive NewsletterColumn :=
| ColTitle | ColSource | ColPublished | ColSummary | ColUrl
| ColAuthenticScore | ColMarketImpactScore | ColKeyword
| ColSopCategory | ColBusinessCategory.

Definition DEFAULT_COLUMNS : list NewsletterColumn :=
  [ ColTitle; ColSource; ColPublished; ColSummary; ColUrl;
    ColAuthenticScore; ColMarketImpactScore; ColKeyword; ColSopCategory ].

(** The [timeWindow] field: ["all" | "24h" | "3d" | "7d"]. *)
Inductive TimeWindow := WindowAll | Window24h | Window3d | Window7d.

Record FiltersState := {
  filter_keyword : jsstring;
  filter_company : jsstring;
  searchTerm : jsstring;
  minAuthentic : Z;
  minImpact : Z;
  timeWindow : TimeWindow
}.

Definition EMPTY_FILTERS : FiltersState :=
  {| filter_keyword := lit "all";
     filter_company := lit "all";
     searchTerm := lit "";
     minAuthentic := 0;
     minImpact := 0;
     timeWindow := WindowAll |}.

(** [Array.prototype.filter]: the callback sees each element with its index. *)
Fixpoint filterFrom {A} (cb : A -> nat -> bool) (index : nat) (xs : list A)
    : list A :=
  match xs with
  | [] => []
  | x :: rest =>
      if cb x index then x :: filterFrom cb (S index) rest
      else filterFrom cb (S index) rest
  end.

(** [xs.slice(start, end)], negative indices counting from the end. *)
Definition Array_slice {A} (start stop : Z) (xs : list A) : list A :=
  let len := Z.of_nat (List.length xs) in
  let k := if (start <? 0)%Z then Z.max (len + start) 0 else Z.min start len in
  let final := if (stop <? 0)%Z then Z.max (len + stop) 0 else Z.min stop len in
  firstn (Z.to_nat (final - k)) (skipn (Z.to_nat k) xs).

(** The milliseconds of a window other than ["all"]. *)
Definition windowLimit (w : TimeWindow) : Z :=
  match w with
  | Window24h => 24 * 60 * 60 * 1000
  | Window3d => 3 * 24 * 60 * 60 * 1000
  | _ => 7 * 24 * 60 * 60 * 1000
  end.

Definition isAll (w : TimeWindow) : bool :=
  match w with WindowAll => true | _ => false end.

(** A cell of the preview table. *)
Inductive Cell :=
| LinkCell (href text : jsstring)
| TextCell (text : jsstring)
| NumberCell (n : Z).

Record Row := { row_key : jsstring; cells : list Cell }.

(** The em dash shown for a missing category. *)
Definition dash : jsstring := [0x2014%N].

Section View.

(** [String.prototype.toLowerCase], over the whole of Unicode. *)
Variable toLowerCase : jsstring -> jsstring.

(** [new Date(s).getTime()]: milliseconds, or [None] for [NaN]. *)
Variable Date_getTime : jsstring -> option Z.

(** [format(new Date(value), "MMM d, yyyy HH:mm")] of date-fns, which
    throws ([None]) on an invalid date. *)
Variable format : jsstring -> option jsstring.

Definition formatDate (value : jsstring) : jsstring :=
  match format value with
  | Some text => text
  | None => value
  end.

(** The callback of [results.filter] in [filteredResults]; [now] is what
    [Date.now()] returns during the call. *)
Definition keeps (filters : FiltersState) (now : Z)
    (item : ConsolidatedNewsItem) : bool :=
  if negb (jseqb (filter_keyword filters) (lit "all"))
     && negb (arrayIncludes (keywordMatches item) (filter_keyword filters))
  then false
  else if negb (jseqb (filter_company filters) (lit "all"))
          && negb (arrayIncludes (companyMatches item) (filter_company filters))
  then false
  else if (0 <? jslength (trim (searchTerm filters)))%Z
          && negb (includes
                     (toLowerCase
                        (title item ++ lit " " ++ summary item ++ lit " "
                         ++ source item))
                     (toLowerCase (trim (searchTerm filters))))
  then false
  else if (authenticScore item <? minAuthentic filters)%Z then false
  else if (marketImpactScore item <? minImpact filters)%Z then false
  else if negb (isAll (timeWindow filters))
          && match Date_getTime (publishedAt item) with
             | Some published =>
                 (windowLimit (timeWindow filters) <? now - published)%Z
             | None => false
             end
  then false
  else true.

(** The [filteredResults] memo.  [clock i] is the reading of [Date.now()]
    while the callback runs on the element of index [i]. *)
Definition filteredResults (clock : nat -> Z) (filters : FiltersState)
    (results : list ConsolidatedNewsItem) : list ConsolidatedNewsItem :=
  filterFrom (fun item index => keeps filters (clock index) item) 0 results.

(** The [switch (column)] of the preview table. *)
Definition newsletterCell (item : ConsolidatedNewsItem)
    (column : NewsletterColumn) : Cell :=
  match column with
  | ColTitle => LinkCell (item_url item) (title item)
  | ColSource => TextCell (source item)
  | ColPublished => TextCell (formatDate (publishedAt item))
  | ColSummary => TextCell (summary item)
  | ColUrl => TextCell (item_url item)
  | ColAuthenticScore => NumberCell (authenticScore item)
  | ColMarketImpactScore => NumberCell (marketImpactScore item)
  | ColKeyword => TextCell (join (lit ", ") (keywordMatches item))
  | ColSopCategory =>
      TextCell (match sopCategory item with Some c => c | None => dash end)
  | ColBusinessCategory =>
      TextCell (match businessCategory item with Some c => c | None => dash end)
  end.

Definition newsletterRow (selectedColumns : list NewsletterColumn)
    (item : ConsolidatedNewsItem) : Row :=
  {| row_key := lit "newsletter-" ++ id item;
     cells := map (newsletterCell item) selectedColumns |}.

(** The [<tbody>] of the newsletter preview:
    [filteredResults.slice(0, 12).map(...)]. *)
Definition newsletterPreview (selectedColumns : list NewsletterColumn)
    (filtered : list ConsolidatedNewsItem) : list Row :=
  map (newsletterRow selectedColumns) (Array_slice 0 12 filtered).

End View.

(** Two items and a stricter filter state to run the view on. *)
Definition sampleItem (name : string) (authentic impactScore : Z)
    : ConsolidatedNewsItem :=
  {| id := lit name; title := lit name; source := lit "FDA";
     item_url := lit "https://example.org/" ++ lit name;
     publishedAt := lit "2024-01-01T00:00:00.000Z";
     summary := lit ""; authenticScore := authentic;
     marketImpactScore := impactScore;
     keywordMatches := [lit "biosimilar"]; companyMatches := [];
     sopCategory := None; businessCategory := None |}.

Definition sampleResults : list ConsolidatedNewsItem :=
  [ sampleItem "a" 80 40; sampleItem "b" 30 90; sampleItem "c" 60 60 ].

Definition strictFilters : FiltersState :=
  {| filter_keyword := lit "all";
     filter_company := lit "all";
     searchTerm := lit "";
     minAuthentic := 50;
     minImpact := 50;
     timeWindow := WindowAll |}.

End Page.

(* ===================================================================== *)
(** ** [@/lib/news]: the news pipeline, from the design document *)
(* ===================================================================== *)

Module News.

Local Open Scope Z_scope.

(** Modelled from the spec: the data of the pipeline [gatherNews] of
    [@/lib/news], whose code is not among the sources (only its caller in
    [route.ts] is).  Section 3: an instant is a number of milliseconds, a
    time range is a preset or an explicit pair of instants, a raw record
    may lack its title, URL or date. *)
Definition instant := Z.

Inductive TimeRange :=
| Named (preset : Preset)
| Explicit (from to : instant).

Record RawRecord := {
  raw_title : option jsstring;
  raw_url : option jsstring;
  raw_publishedAt : option instant;
  sourceName : jsstring;
  raw_summary : jsstring
}.

(** Section 4.1: the keyword rows and the company a query came from. *)
Record Query := {
  query_text : jsstring;
  fromKeywords : list KeywordSourceRow;
  fromCompany : option CompanyTarget
}.

(** A normalized record on its way through the pipeline. *)
Record Candidate := {
  cand_id : jsstring;
  cand_title : jsstring;
  cand_source : jsstring;
  cand_url : jsstring;
  cand_publishedAt : instant;
  cand_summary : jsstring;
  cand_keywordMatches : list jsstring;
  cand_companyMatches : list jsstring;
  cand_sopCategory : option jsstring;
  cand_businessCategory : option jsstring
}.

Record Scored := { candidate : Candidate; authentic : Z; impact : Z }.

(** Section 7 (d): the validation failures. *)
Inductive ValidationError :=
| EmptyKeywords
| EmptyCompanyTargets
| InvalidTimeRange.

Inductive Result :=
| Accepted (items : list ConsolidatedNewsItem)
| Rejected (why : ValidationError).

(** Modelled from the spec: the window a time range stands for at the
    instant [now] of the run; the presets of section 3 count back from
    [now]. *)
Definition presetMillis (p : Preset) : Z :=
  match p with
  | P24h => 24 * 60 * 60 * 1000
  | P3d => 3 * 24 * 60 * 60 * 1000
  | P7d => 7 * 24 * 60 * 60 * 1000
  | P30d => 30 * 24 * 60 * 60 * 1000
  end.

Definition window (now : instant) (range : TimeRange) : instant * instant :=
  match range with
  | Named p => (now - presetMillis p, now)
  | Explicit from to => (from, to)
  end.

Definition inWindow (w : instant * instant) (t : instant) : bool :=
  (fst w <=? t)%Z && (t <=? snd w)%Z.

(** A candidate whose date lies in a window. *)
Definition dated (w : instant * instant) (c : Candidate) : Prop :=
  inWindow w (cand_publishedAt c) = true.

(** Modelled from the spec: section 3, "if custom, from <= to". *)
Definition validRange (range : TimeRange) : bool :=
  match range with
  | Named _ => true
  | Explicit from to => (from <=? to)%Z
  end.

(** Modelled from the spec: section 7 (d), "empty keyword/company list,
    invalid time range", checked before any fetch. *)
Definition validate (rows : list KeywordSourceRow)
    (targets : list CompanyTarget) (range : TimeRange)
    : option ValidationError :=
  match rows, targets with
  | [], _ => Some EmptyKeywords
  | _, [] => Some EmptyCompanyTargets
  | _, _ => if validRange range then None else Some InvalidTimeRange
  end.

(** The order of strings by code units, for the "id ascending" tie-break. *)
Fixpoint jsleb (a b : jsstring) : bool :=
  match a, b with
  | [], _ => true
  | _ :: _, [] => false
  | x :: a', y :: b' => N.ltb x y || (N.eqb x y && jsleb a' b')
  end.

(** Modelled from the spec: section 4.4, the merge of two candidates with
    one merge key: matches are unioned, the longer summary is kept, a
    category keeps the first value that is not null. *)
Definition union (xs ys : list jsstring) : list jsstring :=
  xs ++ filter (fun y => negb (arrayIncludes xs y)) ys.

Definition firstSome (a b : option jsstring) : option jsstring :=
  match a with Some _ => a | None => b end.

Definition merge (kept new : Candidate) : Candidate :=
  {| cand_id := cand_id kept;
     cand_title := cand_title kept;
     cand_source := cand_source kept;
     cand_url := cand_url kept;
     cand_publishedAt := cand_publishedAt kept;
     cand_summary :=
       if (jslength (cand_summary kept) <? jslength (cand_summary new))%Z
       then cand_summary new else cand_summary kept;
     cand_keywordMatches :=
       union (cand_keywordMatches kept) (cand_keywordMatches new);
     cand_companyMatches :=
       union (cand_companyMatches kept) (cand_companyMatches new);
     cand_sopCategory :=
       firstSome (cand_sopCategory kept) (cand_sopCategory new);
     cand_businessCategory :=
       firstSome (cand_businessCategory kept) (cand_businessCategory new) |}.

(** Modelled from the spec: section 4.6, "negative maxItems ... must be
    treated as zero", then "truncate to the first maxItems". *)
Definition truncate {A} (maxItems : Z) (xs : list A) : list A :=
  firstn (Z.to_nat (Z.max 0 maxItems)) xs.

Definition clamp (score : Z) : Z := Z.max 0 (Z.min 100 score).

Section Pipeline.

(** The collaborators of section 6 and the heuristics the design leaves
    open.  A failed or timed-out call yields the empty list. *)
Variable expand : jsstring -> list jsstring.
Variable search : Query -> TimeRange -> list RawRecord.
Variable queryCap : Z -> nat.
Variable deriveId : RawRecord -> jsstring.
Variable mergeKey : Candidate -> jsstring.
Variable authenticity : Candidate -> Z.
Variable marketImpact : Candidate -> Z.
Variable toISOString : instant -> jsstring.

(** The instant at which the pipeline runs. *)
Variable now : instant.

(** Modelled from the spec: section 4.1.  A keyword row yields its
    literal keyword and its expansions, a company target a query for its
    URL; the number of queries is capped. *)
Definition keywordQueries (row : KeywordSourceRow) : list Query :=
  map (fun text => {| query_text := text; fromKeywords := [row];
                      fromCompany := None |})
      (keyword row :: expand (keyword row)).

Definition companyQuery (target : CompanyTarget) : Query :=
  {| query_text := url target; fromKeywords := [];
     fromCompany := Some target |}.

Definition planQueries (rows : list KeywordSourceRow)
    (targets : list CompanyTarget) (maxItems : Z) : list Query :=
  firstn (queryCap maxItems)
         (flat_map keywordQueries rows ++ map companyQuery targets).

(** Modelled from the spec: section 4.3.  A record with neither title nor
    URL is dropped, and so is one whose date is missing or outside the
    requested window; categories are copied when one keyword row is the
    origin. *)
Definition normalize (range : TimeRange) (q : Query) (r : RawRecord)
    : option Candidate :=
  match raw_title r, raw_url r with
  | None, None => None
  | _, _ =>
      match raw_publishedAt r with
      | None => None
      | Some t =>
          if inWindow (window now range) t then
            Some {| cand_id := deriveId r;
                    cand_title := match raw_title r with Some s => s | None => [] end;
                    cand_source := sourceName r;
                    cand_url := match raw_url r with Some s => s | None => [] end;
                    cand_publishedAt := t;
                    cand_summary := raw_summary r;
                    cand_keywordMatches := map keyword (fromKeywords q);
                    cand_companyMatches :=
                      match fromCompany q with
                      | Some target => [label target]
                      | None => []
                      end;
                    cand_sopCategory :=
                      match fromKeywords q with
                      | [row] => row_sopCategory row
                      | _ => None
                      end;
                    cand_businessCategory :=
                      match fromKeywords q with
                      | [row] => row_businessCategory row
                      | _ => None
                      end |}
          else None
      end
  end.

Fixpoint keepSome {A} (xs : list (option A)) : list A :=
  match xs with
  | [] => []
  | Some x :: rest => x :: keepSome rest
  | None :: rest => keepSome rest
  end.

(** The candidates of all queries, in the order the queries were planned. *)
Definition fetchAll (range : TimeRange) (queries : list Query)
    : list Candidate :=
  flat_map (fun q => keepSome (map (normalize range q) (search q range)))
           queries.

(** Modelled from the spec: section 4.4.  Candidates are taken in
    provenance order; one with the merge key of an earlier candidate is
    merged into it. *)
Fixpoint mergeInto (c : Candidate) (acc : list Candidate) : list Candidate :=
  match acc with
  | [] => [c]
  | x :: rest =>
      if jseqb (mergeKey x) (mergeKey c) then merge x c :: rest
      else x :: mergeInto c rest
  end.

Definition deduplicate (cs : list Candidate) : list Candidate :=
  fold_left (fun acc c => mergeInto c acc) cs [].

(** Modelled from the spec: section 4.5, two scores clamped to [0,100]. *)
Definition score (c : Candidate) : Scored :=
  {| candidate := c;
     authentic := clamp (authenticity c);
     impact := clamp (marketImpact c) |}.

(** Modelled from the spec: section 4.6.  Newest first, then the higher
    market impact, then the smaller id. *)
Definition precedes (a b : Scored) : bool :=
  let ta := cand_publishedAt (candidate a) in
  let tb := cand_publishedAt (candidate b) in
  (tb <? ta)%Z
  || ((ta =? tb)%Z
      && ((impact b <? impact a)%Z
          || ((impact a =? impact b)%Z
              && jsleb (cand_id (candidate a)) (cand_id (candidate b))))).

Fixpoint insert (x : Scored) (sorted : list Scored) : list Scored :=
  match sorted with
  | [] => [x]
  | y :: rest => if precedes x y then x :: sorted else y :: insert x rest
  end.

Definition sort (xs : list Scored) : list Scored := fold_right insert [] xs.

Definition aggregate (maxItems : Z) (xs : list Scored) : list Scored :=
  truncate maxItems (sort xs).

Definition toItem (s : Scored) : ConsolidatedNewsItem :=
  let c := candidate s in
  {| id := cand_id c;
     title := cand_title c;
     source := cand_source c;
     item_url := cand_url c;
     publishedAt := toISOString (cand_publishedAt c);
     summary := cand_summary c;
     authenticScore := authentic s;
     marketImpactScore := impact s;
     keywordMatches := cand_keywordMatches c;
     companyMatches := cand_companyMatches c;
     sopCategory := cand_sopCategory c;
     businessCategory := cand_businessCategory c |}.

(** Modelled from the spec: the pipeline of section 2, behind the
    validation of section 7 (d) and the defensive filter of section 3. *)
Definition gatherNews (keywords : list KeywordSourceRow)
    (companyTargets : list CompanyTarget) (timeRange : TimeRange)
    (maxItems : Z) : Result :=
  let rows := filter (fun kw => negb (blank (keyword kw))) keywords in
  let targets := filter (fun t => negb (blank (url t))) companyTargets in
  match validate rows targets timeRange with
  | Some why => Rejected why
  | None =>
      let queries := planQueries rows targets maxItems in
      let candidates := fetchAll timeRange queries in
      Accepted
        (map toItem (aggregate maxItems (map score (deduplicate candidates))))
  end.

End Pipeline.

(** The scenario of section 8 of the design document: one keyword row, one
    company target, the last seven days, at most five items, and two sources
    that each return one record about the same URL, published two days
    before the run. *)
Definition scenarioNow : instant := 1700000000000.

Definition scenarioRow : KeywordSourceRow :=
  {| keyword := lit "biosimilar approval"; row_sopCategory := None;
     row_businessCategory := None; companies := None |}.

Definition scenarioTarget : CompanyTarget :=
  {| target_id := lit "t1"; label := lit "Amgen"; url := lit "https://amgen.com" |}.

Definition scenarioRecord (name : string) : RawRecord :=
  {| raw_title := Some (lit "Biosimilar approved");
     raw_url := Some (lit "https://amgen.com/news/1");
     raw_publishedAt := Some (scenarioNow - 2 * 24 * 60 * 60 * 1000);
     sourceName := lit name;
     raw_summary := lit "" |}.

Definition scenarioSearch (q : Query) (_ : TimeRange) : list RawRecord :=
  match fromCompany q with
  | Some _ => [scenarioRecord "company feed"]
  | None => [scenarioRecord "web search"]
  end.

Definition scenarioISO (t : instant) : jsstring :=
  if t =? scenarioNow - 2 * 24 * 60 * 60 * 1000
  then lit "2023-11-12T22:13:20.000Z" else lit "".

Definition scenarioRun (timeRange : TimeRange) (maxItems : Z) : Result :=
  gatherNews (fun _ => []) scenarioSearch (fun _ => 8%nat)
    (fun r => match raw_url r with Some u => u | None => [] end)
    cand_url (fun _ => 70) (fun _ => 55) scenarioISO scenarioNow
    [scenarioRow] [scenarioTarget] timeRange maxItems.

Definition scenarioItem : ConsolidatedNewsItem :=
  {| id := lit "https://amgen.com/news/1";
     title := lit "Biosimilar approved";
     source := lit "web search";
     item_url := lit "https://amgen.com/news/1";
     publishedAt := lit "2023-11-12T22:13:20.000Z";
     summary := lit "";
     authenticScore := 70;
     marketImpactScore := 55;
     keywordMatches := [lit "biosimilar approval"];
     companyMatches := [lit "Amgen"];
     sopCategory := None;
     businessCategory := None |}.

End News.

(* ===================================================================== *)
(** ** [page.tsx]: the state of [Home] and the functions that update it *)
(* ===================================================================== *)

Module Home.

Import Route Page.

(** *** Insertion-ordered sets: [new Set(...)] and [Array.from] *)

(** [set.add(x)]: a value already present (by [===] on strings) is not added
    again, a new one goes last. *)
Definition Set_add (set : list jsstring) (x : jsstring) : list jsstring :=
  if arrayIncludes set x then set else set ++ [x].

(** [Array.from(new Set(xs))]. *)
Definition Array_from_Set (xs : list jsstring) : list jsstring :=
  fold_left Set_add xs [].

(** The [keywordOptions] memo. *)
Definition keywordOptions (keywordRows : list KeywordSourceRow) : list jsstring :=
  Array_from_Set (map keyword keywordRows).

(** The [companyOptions] memo: the two nested [forEach] loops add to one set. *)
Definition companyOptions (results : list ConsolidatedNewsItem) : list jsstring :=
  fold_left (fun companies item => fold_left Set_add (companyMatches item) companies)
            results [].

(** *** Keyword rows *)

(** [s.split(/[,;]+/)]: the pieces between maximal runs of commas and
    semicolons; a run at either end leaves an empty piece there, and the
    empty string splits into one empty piece. *)
Definition isSeparator (c : code_unit) : bool :=
  N.eqb c 44 || N.eqb c 59.

Fixpoint split_separators (s : jsstring) : list jsstring :=
  match s with
  | [] => [[]]
  | c :: rest =>
      if isSeparator c then
        match rest with
        | [] => [[]; []]
        | c' :: _ => if isSeparator c' then split_separators rest
                     else [] :: split_separators rest
        end
      else
        match split_separators rest with
        | piece :: more => (c :: piece) :: more
        | [] => [[c]]
        end
  end.

(** [Boolean(s)] on a string: false for the empty string only. *)
Definition String_Boolean (s : jsstring) : bool :=
  match s with [] => false | _ :: _ => true end.

(** The [companies] branch of [updateKeyword]:
    [value.split(/[,;]+/).map((entry) => entry.trim()).filter(Boolean)]. *)
Definition parseCompanies (value : jsstring) : list jsstring :=
  filter String_Boolean (map trim (split_separators value)).

(** The text of the companies input: [row.companies?.join(", ") ?? ""]. *)
Definition companiesText (row : KeywordSourceRow) : jsstring :=
  match companies row with
  | Some cs => join (lit ", ") cs
  | None => lit ""
  end.

(** [keyof KeywordSourceRow]. *)
Inductive KeywordField :=
| FieldKeyword | FieldSopCategory | FieldBusinessCategory | FieldCompanies.

(** The body of the updater of [updateKeyword] on the copied row. *)
Definition setKeywordField (field : KeywordField) (value : jsstring)
    (current : KeywordSourceRow) : KeywordSourceRow :=
  match field with
  | FieldCompanies =>
      {| keyword := keyword current;
         row_sopCategory := row_sopCategory current;
         row_businessCategory := row_businessCategory current;
         companies := Some (parseCompanies value) |}
  | FieldKeyword =>
      {| keyword := value;
         row_sopCategory := row_sopCategory current;
         row_businessCategory := row_businessCategory current;
         companies := companies current |}
  | FieldSopCategory =>
      {| keyword := keyword current;
         row_sopCategory := Some value;
         row_businessCategory := row_businessCategory current;
         companies := companies current |}
  | FieldBusinessCategory =>
      {| keyword := keyword current;
         row_sopCategory := row_sopCategory current;
         row_businessCategory := Some value;
         companies := companies current |}
  end.

(** [next[index] = current] on a copy of the array, for an index inside it. *)
Fixpoint Array_set {A} (index : nat) (x : A) (xs : list A) : list A :=
  match xs, index with
  | [], _ => []
  | _ :: rest, O => x :: rest
  | y :: rest, S i => y :: Array_set i x rest
  end.

(** [updateKeyword(index, field, value)], as the updater of [setKeywordRows].
    For an index past the end JavaScript would store an object that has
    [field] only, which is no [KeywordSourceRow]: the result is [None]. *)
Definition updateKeyword (index : nat) (field : KeywordField) (value : jsstring)
    (prev : list KeywordSourceRow) : option (list KeywordSourceRow) :=
  match nth_error prev index with
  | Some row => Some (Array_set index (setKeywordField field value row) prev)
  | None => None
  end.

Definition newKeywordRow : KeywordSourceRow :=
  {| keyword := lit "New keyword";
     row_sopCategory := Some (lit "");
     row_businessCategory := Some (lit "");
     companies := None |}.

(** [addKeyword()]. *)
Definition addKeyword (prev : list KeywordSourceRow) : list KeywordSourceRow :=
  prev ++ [newKeywordRow].

(** [removeKeyword(keyword)]. *)
Definition removeKeyword (k : jsstring) (prev : list KeywordSourceRow)
    : list KeywordSourceRow :=
  filter (fun row => negb (jseqb (keyword row) k)) prev.

(** The rows [parseWorkbook] resolves to, from the rows of the first sheet:
    [rows.map(normalizeKeywordRow).filter((row) => row.keyword.trim().length > 0)].
    [normalizeKeywordRow] of [@/lib/keywords] is taken as given. *)
Definition parseWorkbook_rows {SheetRow : Type}
    (normalizeKeywordRow : SheetRow -> KeywordSourceRow)
    (rows : list SheetRow) : list KeywordSourceRow :=
  filter (fun row => (0 <? jslength (trim (keyword row)))%Z)
         (map normalizeKeywordRow rows).

(** *** Company targets *)

(** [addCompanyTarget()]; [newId] is what [getId()] returns. *)
Definition addCompanyTarget (newId : jsstring) (prev : list CompanyTarget)
    : list CompanyTarget :=
  prev ++ [ {| target_id := newId; label := lit ""; url := lit "" |} ].

(** [keyof CompanyTarget]. *)
Inductive TargetField := FieldId | FieldLabel | FieldUrl.

(** [{ ...target, [field]: value }]. *)
Definition setTargetField (field : TargetField) (value : jsstring)
    (target : CompanyTarget) : CompanyTarget :=
  match field with
  | FieldId => {| target_id := value; label := label target; url := url target |}
  | FieldLabel => {| target_id := target_id target; label := value; url := url target |}
  | FieldUrl => {| target_id := target_id target; label := label target; url := value |}
  end.

(** [updateCompanyTarget(id, field, value)]. *)
Definition updateCompanyTarget (i : jsstring) (field : TargetField)
    (value : jsstring) (prev : list CompanyTarget) : list CompanyTarget :=
  map (fun target =>
         if jseqb (target_id target) i then setTargetField field value target
         else target)
      prev.

(** [removeCompanyTarget(id)]. *)
Definition removeCompanyTarget (i : jsstring) (prev : list CompanyTarget)
    : list CompanyTarget :=
  filter (fun target => negb (jseqb (target_id target) i)) prev.

(** *** Newsletter columns *)

Definition column_eqb (a b : NewsletterColumn) : bool :=
  match a, b with
  | ColTitle, ColTitle | ColSource, ColSource | ColPublished, ColPublished
  | ColSummary, ColSummary | ColUrl, ColUrl
  | ColAuthenticScore, ColAuthenticScore
  | ColMarketImpactScore, ColMarketImpactScore | ColKeyword, ColKeyword
  | ColSopCategory, ColSopCategory
  | ColBusinessCategory, ColBusinessCategory => true
  | _, _ => false
  end.

(** [toggleColumn(column)]. *)
Definition toggleColumn (column : NewsletterColumn) (prev : list NewsletterColumn)
    : list NewsletterColumn :=
  if existsb (column_eqb column) prev
  then filter (fun item => negb (column_eqb item column)) prev
  else prev ++ [column].

(** The note under the preview: [filteredResults.length > 12]. *)
Definition showsTruncationNote (filtered : list ConsolidatedNewsItem) : bool :=
  (12 <? Z.of_nat (List.length filtered))%Z.

(** *** The filter controls

    Each control replaces one field: [setFilters((prev) => ({ ...prev, field }))]. *)

Definition withCompany (company : jsstring) (prev : FiltersState) : FiltersState :=
  {| filter_keyword := filter_keyword prev;
     filter_company := company;
     searchTerm := searchTerm prev;
     minAuthentic := minAuthentic prev;
     minImpact := minImpact prev;
     timeWindow := timeWindow prev |}.

Definition withSearchTerm (term : jsstring) (prev : FiltersState) : FiltersState :=
  {| filter_keyword := filter_keyword prev;
     filter_company := filter_company prev;
     searchTerm := term;
     minAuthentic := minAuthentic prev;
     minImpact := minImpact prev;
     timeWindow := timeWindow prev |}.

Definition withTimeWindow (w : TimeWindow) (prev : FiltersState) : FiltersState :=
  {| filter_keyword := filter_keyword prev;
     filter_company := filter_company prev;
     searchTerm := searchTerm prev;
     minAuthentic := minAuthentic prev;
     minImpact := minImpact prev;
     timeWindow := w |}.

(** *** The search *)

(** The part of the state of [Home] that [handleSearch] reads and writes.
    [results] is [None] when [setResults] was given [undefined]. *)
Record SearchState := {
  keywordRows : list KeywordSourceRow;
  targets : list CompanyTarget;
  range : TimeRangeOption;
  cap : Z;
  results : option (list ConsolidatedNewsItem);
  isLoading : bool;
  error : option jsstring;
  lastRun : option Z
}.

(** The body of the request: the four pieces of state, stringified. *)
Definition searchBody (s : SearchState) : json :=
  json_of_SearchPayload
    {| keywords := keywordRows s; companyTargets := targets s;
       timeRange := range s; maxItems := Some (cap s) |}.

(** [response.ok]. *)
Definition ok (response : Response) : bool :=
  (200 <=? status response)%Z && (status response <=? 299)%Z.

(** [(await response.json()).results]. *)
Definition payload_results (b : ResponseBody)
    : option (list ConsolidatedNewsItem) :=
  match b with
  | Results rs => Some rs
  | Error _ => None
  end.

Definition retrieve_message : jsstring :=
  lit "Unable to retrieve news. Please try again.".

Definition setResults (v : option (list ConsolidatedNewsItem)) (s : SearchState)
    : SearchState :=
  {| keywordRows := keywordRows s; targets := targets s; range := range s;
     cap := cap s; results := v; isLoading := isLoading s;
     error := error s; lastRun := lastRun s |}.

Definition setIsLoading (v : bool) (s : SearchState) : SearchState :=
  {| keywordRows := keywordRows s; targets := targets s; range := range s;
     cap := cap s; results := results s; isLoading := v;
     error := error s; lastRun := lastRun s |}.

Definition setError (v : option jsstring) (s : SearchState) : SearchState :=
  {| keywordRows := keywordRows s; targets := targets s; range := range s;
     cap := cap s; results := results s; isLoading := isLoading s;
     error := v; lastRun := lastRun s |}.

Definition setLastRun (v : option Z) (s : SearchState) : SearchState :=
  {| keywordRows := keywordRows s; targets := targets s; range := range s;
     cap := cap s; results := results s; isLoading := isLoading s;
     error := error s; lastRun := v |}.

(** [handleSearch()], from the state it was rendered with to the state after
    its last update.  [fetch] is the network: it resolves to a response or
    rejects; [now] is the instant [new Date()] reads on success.  A response
    that is not [ok] throws inside the [try], like a rejected [fetch]. *)
Definition handleSearch (fetch : json -> outcome Response) (now : Z)
    (s0 : SearchState) : SearchState :=
  let s := setError None (setIsLoading true s0) in
  let s :=
    match fetch (searchBody s0) with
    | Returned response =>
        if ok response
        then setLastRun (Some now)
               (setResults (payload_results (body response)) s)
        else setError (Some retrieve_message) s
    | Thrown _ => setError (Some retrieve_message) s
    end in
  setIsLoading false s.

(** The network when the request reaches [POST] of [route.ts]. *)
Definition served
    (gatherNews : list json -> list json -> value -> json
                  -> outcome (list ConsolidatedNewsItem))
    (requestBody : json) : outcome Response :=
  fst (run_POST gatherNews {| request_json := Returned requestBody |}).

(** *** Samples *)

(** Company names as [parseCompanies] leaves them: not empty, no white space
    at either end, no comma and no semicolon. *)
Definition separatorFree (s : jsstring) : bool :=
  forallb (fun c => negb (isSeparator c)) s.

Definition wellFormed (c : jsstring) : Prop :=
  c <> [] /\ trim c = c /\ separatorFree c = true.

Definition sampleTargets : list CompanyTarget :=
  [ {| target_id := lit "t1"; label := lit "Amgen"; url := lit "https://amgen.com" |};
    {| target_id := lit "t2"; label := lit "Sandoz"; url := lit "" |} ].

Definition sampleRows : list KeywordSourceRow :=
  [ {| keyword := lit "biosimilar approval"; row_sopCategory := None;
       row_businessCategory := None;
       companies := Some [ lit "Amgen"; lit "Samsung Bioepis" ] |};
    newKeywordRow ].

End Home.

(* ===================================================================== *)
(** ** [route.ts]: what the handler does with a body of any shape *)
(* ===================================================================== *)

Module RouteBody.

Import Route.

(** The string under [field] of a row, when the row is an object that has
    one; the rows for which the callback of the filters does not throw. *)
Definition textOf (field : jsstring) (row : json) : option jsstring :=
  match row with
  | JObject fields =>
      match assoc field fields with
      | Some (JString s) => Some s
      | _ => None
      end
  | _ => None
  end.

Definition hasText (field : jsstring) (row : json) : bool :=
  match textOf field row with Some _ => true | None => false end.

Definition keepsRow (field : jsstring) (row : json) : bool :=
  match textOf field row with Some s => negb (blank s) | None => false end.

(** The property [k] of the body, [undefined] when it has none. *)
Definition prop (j : json) (k : jsstring) : value :=
  match j with
  | JObject fields => assoc k fields
  | _ => None
  end.

Definition filtered (field : jsstring) (v : value) : option (list json) :=
  match v with
  | Some (JArray items) =>
      if forallb (hasText field) items
      then Some (filter (keepsRow field) items)
      else None
  | _ => None
  end.

(** The arguments of the pipeline call for a body, or [None] when the
    handler throws before the call. *)
Definition arguments (j : json) : option Call :=
  match j with
  | JNull => None
  | _ =>
      match filtered (lit "keyword") (prop j (lit "keywords")),
            filtered (lit "url") (prop j (lit "companyTargets")) with
      | Some kws, Some tgs =>
          Some {| call_keywords := kws;
                  call_companyTargets := tgs;
                  call_timeRange := prop j (lit "timeRange");
                  call_maxItems := nullish (prop j (lit "maxItems")) (JNumber 100) |}
      | _, _ => None
      end
  end.

Definition failed : Response :=
  {| status := 500; body := Error failure_message |}.

Definition logged (e : exn) : event :=
  ConsoleError (lit "Failed to run search") e.

(** The [console.error] calls among the events of a run. *)
Fixpoint console_errors (tr : list event) : list exn :=
  match tr with
  | [] => []
  | ConsoleError _ e :: rest => e :: console_errors rest
  | GatherNews _ _ _ _ :: rest => console_errors rest
  end.

(** A body that is no [SearchPayload]: the second keyword is blank, the time
    range is a number and [maxItems] a string. *)
Definition looseBody : json :=
  JObject
    [ (lit "keywords",
       JArray [ JObject [ (lit "keyword", JString (lit "biosimilar")) ];
                JObject [ (lit "keyword", JString (lit "  ")) ] ]);
      (lit "companyTargets", JArray []);
      (lit "timeRange", JNumber 7);
      (lit "maxItems", JString (lit "many")) ].

Definition looseCall : Call :=
  {| call_keywords := [ JObject [ (lit "keyword", JString (lit "biosimilar")) ] ];
     call_companyTargets := [];
     call_timeRange := Some (JNumber 7);
     call_maxItems := JString (lit "many") |}.

End RouteBody.

(* ===================================================================== *)
(** * Properties *)
(* ===================================================================== *)

Unset Implicit Arguments.

(** ** Strings *)

Lemma jseqb_refl (a : jsstring) : jseqb a a = true.
Proof.
  induction a as [|x a IH]; simpl; [reflexivity|].
  now rewrite N.eqb_refl, IH.
Qed.

Lemma jseqb_eq (a b : jsstring) : jseqb a b = true <-> a = b.
Proof.
  split.
  - revert b; induction a as [|x a IH]; intros [|y b] H; simpl in H;
      try discriminate; [reflexivity|].
    apply andb_true_iff in H as [Hx Hab].
    apply N.eqb_eq in Hx. apply IH in Hab. now subst.
  - intros ->. apply jseqb_refl.
Qed.

Lemma trimStart_blank (s : jsstring) : blank s = true -> trimStart s = [].
Proof.
  induction s as [|c s IH]; simpl; [reflexivity|].
  intros H. apply andb_true_iff in H as [Hc Hs]. now rewrite Hc, IH.
Qed.

Lemma blank_trimStart (s : jsstring) : trimStart s = [] -> blank s = true.
Proof.
  induction s as [|c s IH]; simpl; [reflexivity|].
  destruct (isWhiteSpace c); simpl; [exact IH|discriminate].
Qed.

Lemma blank_rev (s : jsstring) : blank (rev s) = blank s.
Proof.
  unfold blank. induction s as [|c s IH]; simpl; [reflexivity|].
  rewrite forallb_app, IH. simpl. rewrite andb_true_r. apply andb_comm.
Qed.

(** What is left of a string after [trimStart] is a suffix of it. *)
Lemma trimStart_suffix (s : jsstring) :
  exists ws, s = ws ++ trimStart s /\ blank ws = true.
Proof.
  induction s as [|c s [ws [E B]]]; simpl.
  - now exists [].
  - destruct (isWhiteSpace c) eqn:Hc.
    + exists (c :: ws). simpl. rewrite Hc, B. split; [now f_equal|reflexivity].
    + now exists [].
Qed.

Lemma blank_app (a b : jsstring) : blank (a ++ b) = blank a && blank b.
Proof. apply forallb_app. Qed.

(** The handler's test [s.trim().length > 0] fails exactly on blank strings. *)
Lemma trim_empty_iff_blank (s : jsstring) : trim s = [] <-> blank s = true.
Proof.
  unfold trim, trimEnd. split.
  - intros H.
    assert (Hr : trimStart (rev (trimStart s)) = []).
    { destruct (trimStart (rev (trimStart s))) as [|x l] eqn:E; [reflexivity|].
      simpl in H. now destruct (rev l). }
    apply blank_trimStart in Hr. rewrite blank_rev in Hr.
    destruct (trimStart_suffix s) as [ws [E B]].
    rewrite E, blank_app, B, Hr. reflexivity.
  - intros H. rewrite (trimStart_blank s H). reflexivity.
Qed.

Lemma trim_length_pos (s : jsstring) :
  (0 <? jslength (trim s))%Z = negb (blank s).
Proof.
  destruct (blank s) eqn:B; simpl.
  - apply trim_empty_iff_blank in B. now rewrite B.
  - destruct (trim s) as [|x l] eqn:E.
    + apply trim_empty_iff_blank in E. congruence.
    + unfold jslength. simpl List.length. apply Z.ltb_lt. lia.
Qed.

(** [trim] on a few strings: inner white space stays, a no-break space and a
    line separator at the ends go. *)
Example trim_inner_space : trim (lit "  a b  ") = lit "a b".
Proof. reflexivity. Qed.

Example trim_unicode_space : trim ([0x00A0; 0x2028] ++ lit "x" ++ [0xFEFF])%N = lit "x".
Proof. reflexivity. Qed.

Example blank_tab_newline : blank ([0x0009; 0x000A; 0x0020])%N = true.
Proof. reflexivity. Qed.

Example includes_substring :
  includes (lit "biosimilar launch") (lit "lar la") = true
  /\ includes (lit "biosimilar launch") (lit "lunch") = false.
Proof. split; reflexivity. Qed.

(* ===================================================================== *)
(** ** The [POST] handler *)
(* ===================================================================== *)

Module RouteFacts.

Import Route.

(** Inversion of a [bind] that returned. *)
Lemma bind_returned {A B} (m : M A) (k : A -> M B) tr b tr' :
  bind m k tr = (Returned b, tr') ->
  exists a tr1, m tr = (Returned a, tr1) /\ k a tr1 = (Returned b, tr').
Proof.
  unfold bind. destruct (m tr) as [[a|e] tr1]; intros H.
  - now exists a, tr1.
  - discriminate.
Qed.

Ltac invert_bind H :=
  let a := fresh "a" in
  let tr := fresh "tr" in
  let Hm := fresh "Hm" in
  apply bind_returned in H as (a & tr & Hm & H).

(** The two filters on a well-typed body. *)
Lemma filter_keyword_rows (rows : list KeywordSourceRow) tr :
  filterM (nonBlank (lit "keyword")) (map json_of_KeywordSourceRow rows) tr
  = (Returned (map json_of_KeywordSourceRow
                 (filter (fun kw => negb (blank (keyword kw))) rows)), tr).
Proof.
  induction rows as [|row rows IH]; [reflexivity|].
  cbn [map filterM filter]. unfold bind at 1.
  assert (E : nonBlank (lit "keyword") (json_of_KeywordSourceRow row) tr
              = (Returned (negb (blank (keyword row))), tr)).
  { unfold nonBlank, json_of_KeywordSourceRow, getProp, bind, ret.
    cbn [assoc]. rewrite jseqb_refl. cbn [String_trim ret].
    now rewrite trim_length_pos. }
  rewrite E. unfold bind. rewrite IH. unfold ret.
  now destruct (negb (blank (keyword row))).
Qed.

Lemma filter_company_targets (targets : list CompanyTarget) tr :
  filterM (nonBlank (lit "url")) (map json_of_CompanyTarget targets) tr
  = (Returned (map json_of_CompanyTarget
                 (filter (fun target => negb (blank (url target))) targets)), tr).
Proof.
  induction targets as [|target targets IH]; [reflexivity|].
  cbn [map filterM filter]. unfold bind at 1.
  assert (E : nonBlank (lit "url") (json_of_CompanyTarget target) tr
              = (Returned (negb (blank (url target))), tr)).
  { unfold nonBlank, json_of_CompanyTarget, getProp, bind, ret.
    change (assoc (lit "url") _) with (Some (JString (url target))).
    cbn [String_trim ret]. now rewrite trim_length_pos. }
  rewrite E. unfold bind. rewrite IH. unfold ret.
  now destruct (negb (blank (url target))).
Qed.

(** Running a [bind] whose first part returned. *)
Lemma bind_run {A B} (m : M A) (k : A -> M B) tr a tr1 :
  m tr = (Returned a, tr1) -> bind m k tr = k a tr1.
Proof. unfold bind. now intros ->. Qed.

Ltac run_step tac := erewrite bind_run by tac; cbv beta.

(** Reading the fields of a well-typed body. *)
Lemma get_keywords (p : SearchPayload) tr :
  getProp (Some (json_of_SearchPayload p)) (lit "keywords") tr
  = (Returned (Some (JArray (map json_of_KeywordSourceRow (keywords p)))), tr).
Proof. reflexivity. Qed.

Lemma get_companyTargets (p : SearchPayload) tr :
  getProp (Some (json_of_SearchPayload p)) (lit "companyTargets") tr
  = (Returned (Some (JArray (map json_of_CompanyTarget (companyTargets p)))), tr).
Proof. reflexivity. Qed.

Lemma get_timeRange (p : SearchPayload) tr :
  getProp (Some (json_of_SearchPayload p)) (lit "timeRange") tr
  = (Returned (Some (json_of_TimeRangeOption (timeRange p))), tr).
Proof. reflexivity. Qed.

Lemma get_maxItems (p : SearchPayload) tr :
  getProp (Some (json_of_SearchPayload p)) (lit "maxItems") tr
  = (Returned (option_map JNumber (maxItems p)), tr).
Proof.
  unfold json_of_SearchPayload. now destruct (maxItems p).
Qed.

(** The whole run of the handler on a well-typed body, for any pipeline. *)
Lemma run_POST_typed gatherNews (p : SearchPayload) :
  run_POST gatherNews (request_of p)
  = match gatherNews
            (map json_of_KeywordSourceRow (nonBlankKeywords p))
            (map json_of_CompanyTarget (nonBlankTargets p))
            (Some (json_of_TimeRangeOption (timeRange p)))
            (JNumber (match maxItems p with Some n => n | None => 100 end))
    with
    | Returned results =>
        (Returned {| status := 200; body := Results results |},
         [expected_call p])
    | Thrown e =>
        (Returned {| status := 500; body := Error failure_message |},
         [expected_call p; ConsoleError (lit "Failed to run search") e])
    end.
Proof.
  unfold run_POST, POST, try_catch.
  run_step reflexivity.
  run_step ltac:(apply get_keywords).
  run_step ltac:(apply filter_keyword_rows).
  run_step ltac:(apply get_companyTargets).
  run_step ltac:(apply filter_company_targets).
  run_step ltac:(apply get_timeRange).
  run_step ltac:(apply get_maxItems).
  fold (nonBlankKeywords p). fold (nonBlankTargets p).
  replace (nullish (option_map JNumber (maxItems p)) (JNumber 100))
    with (JNumber (match maxItems p with Some n => n | None => 100 end))
    by now destruct (maxItems p).
  unfold await_gatherNews, expected_call, bind, emit, ret, throw.
  cbn [app]. now destruct (gatherNews _ _ _ _).
Qed.

(** A well-typed body is a search request body whose [maxItems] is absent
    or a number. *)
Lemma json_of_SearchPayload_body (p : SearchPayload) :
  json_of_SearchPayload p
  = searchRequestBody (keywords p) (companyTargets p) (timeRange p)
      (field_of_maxItems (maxItems p)).
Proof. now destruct p as [kws tgs range [n|]]. Qed.

Lemma get_maxItems_field kws tgs range (field : MaxItemsField) tr :
  getProp (Some (searchRequestBody kws tgs range field)) (lit "maxItems") tr
  = (Returned match field with
              | MaxItemsAbsent => None
              | MaxItemsNull => Some JNull
              | MaxItemsNumber n => Some (JNumber n)
              end, tr).
Proof. now destruct field. Qed.

(** The run of the handler on a search request body, whatever its
    [maxItems] is. *)
Lemma run_POST_body gatherNews kws tgs range (field : MaxItemsField) :
  run_POST gatherNews
    {| request_json := Returned (searchRequestBody kws tgs range field) |}
  = let call :=
      GatherNews
        (map json_of_KeywordSourceRow
           (filter (fun kw => negb (blank (keyword kw))) kws))
        (map json_of_CompanyTarget
           (filter (fun target => negb (blank (url target))) tgs))
        (Some (json_of_TimeRangeOption range))
        (JNumber (match field with
                  | MaxItemsAbsent | MaxItemsNull => 100
                  | MaxItemsNumber n => n
                  end)) in
    match gatherNews
            (map json_of_KeywordSourceRow
               (filter (fun kw => negb (blank (keyword kw))) kws))
            (map json_of_CompanyTarget
               (filter (fun target => negb (blank (url target))) tgs))
            (Some (json_of_TimeRangeOption range))
            (JNumber (match field with
                      | MaxItemsAbsent | MaxItemsNull => 100
                      | MaxItemsNumber n => n
                      end))
    with
    | Returned results =>
        (Returned {| status := 200; body := Results results |}, [call])
    | Thrown e =>
        (Returned {| status := 500; body := Error failure_message |},
         [call; ConsoleError (lit "Failed to run search") e])
    end.
Proof.
  unfold run_POST, POST, try_catch.
  run_step reflexivity.
  run_step reflexivity.
  run_step ltac:(apply filter_keyword_rows).
  run_step reflexivity.
  run_step ltac:(apply filter_company_targets).
  run_step reflexivity.
  run_step ltac:(apply get_maxItems_field).
  change (assoc (lit "timeRange") _)
    with (Some (json_of_TimeRangeOption range)).
  unfold await_gatherNews, bind, emit, ret, throw. cbv zeta. cbn [app].
  destruct field; cbn [nullish]; now destruct (gatherNews _ _ _ _).
Qed.

(** C1 (amended).  For every search request body the handler calls the
    pipeline once, and the [maxItems] it passes is 100 when the field is
    absent or [null], and the number received otherwise, zero included; a
    well-typed [SearchPayload] is the case of an absent field or a number. *)
Theorem POST_maxItems_absent_defaults gatherNews
    (kws : list KeywordSourceRow) (tgs : list CompanyTarget)
    (range : TimeRangeOption) :
  (forall field : MaxItemsField,
     map call_maxItems
         (pipeline_calls
            (snd (run_POST gatherNews
                    {| request_json :=
                         Returned (searchRequestBody kws tgs range field) |})))
     = [ JNumber (match field with
                  | MaxItemsAbsent => 100
                  | MaxItemsNull => 100
                  | MaxItemsNumber n => n
                  end) ])
  /\ (forall m : option Z,
        map call_maxItems
            (pipeline_calls
               (snd (run_POST gatherNews
                       (request_of {| keywords := kws; companyTargets := tgs;
                                      timeRange := range; maxItems := m |}))))
        = [ JNumber (match m with None => 100 | Some n => n end) ]).
Proof.
  split.
  - intros field. rewrite run_POST_body. cbv zeta.
    destruct (gatherNews _ _ _ _); now destruct field.
  - intros m. unfold request_of. rewrite json_of_SearchPayload_body.
    cbn [keywords companyTargets timeRange maxItems].
    rewrite run_POST_body. cbv zeta.
    destruct (gatherNews _ _ _ _); now destruct m.
Qed.

(** C1 as stated fails: a body whose [maxItems] is zero reaches the
    pipeline with [maxItems] zero, not 100. *)
Lemma POST_maxItems_zero_is_passed :
  map call_maxItems
      (pipeline_calls (snd (run_POST noNews (request_of zeroCapPayload))))
  = [ JNumber 0 ]
  /\ JNumber 0 <> JNumber 100.
Proof.
  split; [reflexivity|discriminate].
Qed.

(** C2.  Whatever the request and whatever the pipeline does, the handler
    returns, and its response is either 200 with a result list or 500 with
    the one fixed message. *)
Theorem POST_responds_200_or_generic_500 gatherNews (request : Request) :
  exists response tr,
    run_POST gatherNews request = (Returned response, tr)
    /\ ((status response = 200%Z
         /\ exists results, body response = Results results)
        \/ (status response = 500%Z
            /\ body response = Error (lit "Unable to gather news results."))).
Proof.
  unfold run_POST, POST, try_catch.
  match goal with
  | |- context [ match ?run with _ => _ end ] =>
      destruct run as [[response|e] tr] eqn:H
  end.
  - exists response, tr. split; [reflexivity|]. left.
    do 7 (invert_bind H; cbv beta in H).
    invert_bind H. unfold ret in H. injection H as <- _.
    split; [reflexivity|]. now eexists.
  - unfold bind, emit, ret. eexists _, _. split; [reflexivity|].
    right. split; reflexivity.
Qed.

(** C3.  For every well-typed body, the keyword rows and company targets
    passed to the pipeline are exactly the rows whose keyword is not blank
    and the targets whose URL is not blank, in their order. *)
Theorem POST_passes_exactly_nonblank gatherNews (p : SearchPayload) :
  map (fun call => (call_keywords call, call_companyTargets call))
      (pipeline_calls (snd (run_POST gatherNews (request_of p))))
  = [ (map json_of_KeywordSourceRow
         (filter (fun kw => negb (blank (keyword kw))) (keywords p)),
       map json_of_CompanyTarget
         (filter (fun target => negb (blank (url target)))
                 (companyTargets p))) ].
Proof.
  rewrite run_POST_typed. now destruct (gatherNews _ _ _ _).
Qed.

(** C4 (amended).  The handler validates nothing: for every well-typed
    body, empty lists and inverted ranges included, it calls the pipeline
    once, with the rows and targets that are not blank, the time range as
    received and [maxItems] or its default, and answers 200 with the list the
    pipeline returns, or the generic 500 when the pipeline throws. *)
Theorem POST_runs_pipeline_unvalidated gatherNews (p : SearchPayload) :
  run_POST gatherNews (request_of p)
  = match gatherNews
            (map json_of_KeywordSourceRow
               (filter (fun kw => negb (blank (keyword kw))) (keywords p)))
            (map json_of_CompanyTarget
               (filter (fun target => negb (blank (url target)))
                       (companyTargets p)))
            (Some (json_of_TimeRangeOption (timeRange p)))
            (JNumber (match maxItems p with Some n => n | None => 100 end))
    with
    | Returned results =>
        (Returned {| status := 200; body := Results results |},
         [ GatherNews
             (map json_of_KeywordSourceRow
                (filter (fun kw => negb (blank (keyword kw))) (keywords p)))
             (map json_of_CompanyTarget
                (filter (fun target => negb (blank (url target)))
                        (companyTargets p)))
             (Some (json_of_TimeRangeOption (timeRange p)))
             (JNumber (match maxItems p with Some n => n | None => 100 end)) ])
    | Thrown e =>
        (Returned {| status := 500;
                     body := Error (lit "Unable to gather news results.") |},
         [ GatherNews
             (map json_of_KeywordSourceRow
                (filter (fun kw => negb (blank (keyword kw))) (keywords p)))
             (map json_of_CompanyTarget
                (filter (fun target => negb (blank (url target)))
                        (companyTargets p)))
             (Some (json_of_TimeRangeOption (timeRange p)))
             (JNumber (match maxItems p with Some n => n | None => 100 end));
           ConsoleError (lit "Failed to run search") e ])
    end.
Proof.
  exact (run_POST_typed gatherNews p).
Qed.

(** C4 as stated fails on the body with no keyword, no company target and an
    inverted custom range.  When the pipeline refuses it, the answer is the
    generic 500, the very answer given to a body that is not JSON; and
    whatever the pipeline is, the handler does call it, with the empty lists
    and the inverted range, and answers by its outcome alone. *)
Lemma POST_invalid_request_runs_pipeline :
  fst (run_POST rejecting (request_of invalidPayload))
  = fst (run_POST rejecting {| request_json := Thrown SyntaxError |})
  /\ forall gatherNews,
       pipeline_calls (snd (run_POST gatherNews (request_of invalidPayload)))
       = [ {| call_keywords := [];
              call_companyTargets := [];
              call_timeRange :=
                Some (json_of_TimeRangeOption (timeRange invalidPayload));
              call_maxItems := JNumber 5 |} ]
       /\ fst (run_POST gatherNews (request_of invalidPayload))
          = match gatherNews [] []
                    (Some (json_of_TimeRangeOption (timeRange invalidPayload)))
                    (JNumber 5)
            with
            | Returned results =>
                Returned {| status := 200; body := Results results |}
            | Thrown _ =>
                Returned {| status := 500;
                            body := Error (lit "Unable to gather news results.") |}
            end.
Proof.
  split; [reflexivity|].
  intros gatherNews. rewrite run_POST_typed.
  change (nonBlankKeywords invalidPayload) with (@nil KeywordSourceRow).
  change (nonBlankTargets invalidPayload) with (@nil CompanyTarget).
  cbn [map maxItems invalidPayload].
  now destruct (gatherNews _ _ _ _).
Qed.

(** Bodies that are not a [SearchPayload]: the cast of the handler checks
    nothing, the first property read or method call that fails throws, and
    the pipeline is not called. *)
Example POST_invalid_json :
  run_POST noNews {| request_json := Thrown SyntaxError |}
  = (Returned {| status := 500; body := Error failure_message |},
     [ ConsoleError (lit "Failed to run search") SyntaxError ]).
Proof. reflexivity. Qed.

Example POST_empty_object :
  run_POST noNews {| request_json := Returned (JObject []) |}
  = (Returned {| status := 500; body := Error failure_message |},
     [ ConsoleError (lit "Failed to run search") TypeError ]).
Proof. reflexivity. Qed.

Example POST_keyword_not_a_string :
  run_POST noNews
    {| request_json :=
         Returned (JObject [ (lit "keywords",
                              JArray [ JObject [ (lit "keyword", JNumber 7) ] ]);
                             (lit "companyTargets", JArray []) ]) |}
  = (Returned {| status := 500; body := Error failure_message |},
     [ ConsoleError (lit "Failed to run search") TypeError ]).
Proof. reflexivity. Qed.

(** A [maxItems] of [null] is defaulted like an absent one, and a missing
    [timeRange] is passed on as [undefined]. *)
Example POST_null_maxItems :
  run_POST noNews
    {| request_json :=
         Returned (JObject [ (lit "keywords", JArray []);
                             (lit "companyTargets", JArray []);
                             (lit "maxItems", JNull) ]) |}
  = (Returned {| status := 200; body := Results [] |},
     [ GatherNews [] [] None (JNumber 100) ]).
Proof. reflexivity. Qed.

End RouteFacts.

(* ===================================================================== *)
(** ** The result filter and the newsletter preview *)
(* ===================================================================== *)

Module PageFacts.

Import Page.

Section View.

Variable toLowerCase : jsstring -> jsstring.
Variable Date_getTime : jsstring -> option Z.
Variable format : jsstring -> option jsstring.

Local Abbreviation keeps := (keeps toLowerCase Date_getTime).
Local Abbreviation filteredResults := (filteredResults toLowerCase Date_getTime).

(** A filter whose callback accepts less keeps less. *)
Lemma filterFrom_incl {A} (cb1 cb2 : A -> nat -> bool) (xs : list A) :
  forall index,
    (forall x i, cb1 x i = true -> cb2 x i = true) ->
    incl (filterFrom cb1 index xs) (filterFrom cb2 index xs).
Proof.
  induction xs as [|x xs IH]; intros index Hcb; simpl.
  - apply incl_refl.
  - destruct (cb1 x index) eqn:E1.
    + rewrite (Hcb _ _ E1). apply incl_cons.
      * now left.
      * apply incl_tl. now apply IH.
    + destruct (cb2 x index).
      * apply incl_tl. now apply IH.
      * now apply IH.
Qed.

(** A filter whose callback accepts everything changes nothing. *)
Lemma filterFrom_all {A} (cb : A -> nat -> bool) (xs : list A) :
  forall index,
    Forall (fun x => forall i, cb x i = true) xs ->
    filterFrom cb index xs = xs.
Proof.
  induction xs as [|x xs IH]; intros index H; simpl; [reflexivity|].
  inversion H as [|? ? Hx Hxs]; subst.
  now rewrite Hx, IH.
Qed.

(** Raising the two thresholds can only reject more items. *)
Lemma keeps_monotone (loose strict : FiltersState) now item :
  filter_keyword strict = filter_keyword loose ->
  filter_company strict = filter_company loose ->
  searchTerm strict = searchTerm loose ->
  timeWindow strict = timeWindow loose ->
  (minAuthentic loose <= minAuthentic strict)%Z ->
  (minImpact loose <= minImpact strict)%Z ->
  keeps strict now item = true -> keeps loose now item = true.
Proof.
  intros Hk Hc Hs Hw Ha Hi. unfold Page.keeps.
  rewrite Hk, Hc, Hs, Hw.
  repeat match goal with
         | |- context [ if ?c then false else _ ] =>
             lazymatch c with
             | (_ <? minAuthentic _)%Z => fail
             | (_ <? minImpact _)%Z => fail
             | _ => destruct c; [ intros; assumption | ]
             end
         end.
  destruct (authenticScore item <? minAuthentic strict)%Z eqn:E1;
    [discriminate|].
  destruct (marketImpactScore item <? minImpact strict)%Z eqn:E2;
    [discriminate|].
  apply Z.ltb_ge in E1, E2.
  replace (authenticScore item <? minAuthentic loose)%Z with false
    by (symmetry; apply Z.ltb_ge; lia).
  replace (marketImpactScore item <? minImpact loose)%Z with false
    by (symmetry; apply Z.ltb_ge; lia).
  trivial.
Qed.

(** C8.  With the result list and the clock fixed, a filter state that
    differs from another only by higher score thresholds keeps a subset
    of what the other keeps. *)
Theorem filteredResults_monotone_thresholds
    (clock : nat -> Z) (results : list ConsolidatedNewsItem)
    (loose strict : FiltersState) :
  filter_keyword strict = filter_keyword loose ->
  filter_company strict = filter_company loose ->
  searchTerm strict = searchTerm loose ->
  timeWindow strict = timeWindow loose ->
  (minAuthentic loose <= minAuthentic strict)%Z ->
  (minImpact loose <= minImpact strict)%Z ->
  incl (filteredResults clock strict results)
       (filteredResults clock loose results).
Proof.
  intros Hk Hc Hs Hw Ha Hi. unfold Page.filteredResults.
  apply filterFrom_incl. intros item i.
  now apply keeps_monotone.
Qed.

(** The default filter state accepts an item with nonnegative scores. *)
Lemma keeps_EMPTY_FILTERS now item :
  (0 <= authenticScore item)%Z ->
  (0 <= marketImpactScore item)%Z ->
  keeps EMPTY_FILTERS now item = true.
Proof.
  intros Ha Hi. unfold Page.keeps. cbn.
  replace (authenticScore item <? 0)%Z with false
    by (symmetry; apply Z.ltb_ge; lia).
  replace (marketImpactScore item <? 0)%Z with false
    by (symmetry; apply Z.ltb_ge; lia).
  reflexivity.
Qed.

(** C9.  The default filter state returns a result list whose scores are
    all nonnegative unchanged, in the same order. *)
Theorem filteredResults_EMPTY_FILTERS_identity
    (clock : nat -> Z) (results : list ConsolidatedNewsItem) :
  Forall (fun item => (0 <= authenticScore item)%Z
                      /\ (0 <= marketImpactScore item)%Z) results ->
  filteredResults clock EMPTY_FILTERS results = results.
Proof.
  intros H. unfold Page.filteredResults. apply filterFrom_all.
  eapply Forall_impl; [|exact H].
  intros item [Ha Hi] i. now apply keeps_EMPTY_FILTERS.
Qed.

(** [xs.slice(0, n)] is the first [n] elements. *)
Lemma Array_slice_0 {A} (n : nat) (xs : list A) :
  Array_slice 0 (Z.of_nat n) xs = firstn n xs.
Proof.
  unfold Array_slice. cbn [Z.ltb Z.compare].
  destruct (Z.of_nat n <? 0)%Z eqn:E; [apply Z.ltb_lt in E; lia|].
  replace (Z.min 0 (Z.of_nat (List.length xs))) with 0%Z by lia.
  cbn [Z.to_nat skipn]. rewrite Z.sub_0_r.
  destruct (Nat.le_gt_cases n (List.length xs)) as [Hle|Hgt].
  - replace (Z.min (Z.of_nat n) (Z.of_nat (List.length xs)))
      with (Z.of_nat n) by lia.
    now rewrite Nat2Z.id.
  - replace (Z.min (Z.of_nat n) (Z.of_nat (List.length xs)))
      with (Z.of_nat (List.length xs)) by lia.
    rewrite Nat2Z.id, firstn_all. symmetry. apply firstn_all2. lia.
Qed.

(** C10.  Whatever the filter produced, the preview table has one row for
    each of the first 12 items, in their order, and so at most 12 rows. *)
Theorem newsletterPreview_first_12
    (selectedColumns : list NewsletterColumn)
    (filtered : list ConsolidatedNewsItem) :
  newsletterPreview format selectedColumns filtered
  = map (newsletterRow format selectedColumns) (firstn 12 filtered)
  /\ (List.length (newsletterPreview format selectedColumns filtered)
      <= 12)%nat.
Proof.
  unfold newsletterPreview.
  change 12%Z with (Z.of_nat 12). rewrite Array_slice_0.
  split; [reflexivity|].
  rewrite length_map. apply firstn_le_length.
Qed.

End View.

(** The sample under the stricter thresholds: only the third item has both
    scores at 50 or more. *)
Example filteredResults_strict_sample :
  filteredResults (fun s => s) (fun _ => None) (fun _ => 0%Z)
    strictFilters sampleResults
  = [ sampleItem "c" 60 60 ].
Proof. reflexivity. Qed.

Example Array_slice_negative :
  Array_slice (-2) 12 [1; 2; 3; 4]%nat = [3; 4]%nat
  /\ Array_slice 1 (-1) [1; 2; 3; 4]%nat = [2; 3]%nat.
Proof. split; reflexivity. Qed.

(** C8 on the sample: raising both thresholds from 0 to 50. *)
Lemma filteredResults_monotone_thresholds_sample :
  incl (filteredResults (fun s => s) (fun _ => None) (fun _ => 0%Z)
          strictFilters sampleResults)
       (filteredResults (fun s => s) (fun _ => None) (fun _ => 0%Z)
          EMPTY_FILTERS sampleResults).
Proof.
  apply filteredResults_monotone_thresholds;
    solve [ reflexivity | simpl; lia ].
Defined.

(** C9 on the sample. *)
Lemma filteredResults_EMPTY_FILTERS_sample :
  filteredResults (fun s => s) (fun _ => None) (fun _ => 0%Z)
    EMPTY_FILTERS sampleResults
  = sampleResults.
Proof.
  apply filteredResults_EMPTY_FILTERS_identity.
  repeat constructor; simpl; lia.
Defined.

End PageFacts.

(* ===================================================================== *)
(** ** The pipeline of the design document *)
(* ===================================================================== *)

Module NewsFacts.

Import News.
Local Open Scope Z_scope.

Section Pipeline.

Variable expand : jsstring -> list jsstring.
Variable search : Query -> TimeRange -> list RawRecord.
Variable queryCap : Z -> nat.
Variable deriveId : RawRecord -> jsstring.
Variable mergeKey : Candidate -> jsstring.
Variable authenticity : Candidate -> Z.
Variable marketImpact : Candidate -> Z.
Variable toISOString : instant -> jsstring.
Variable now : instant.

Local Abbreviation gatherNews :=
  (gatherNews expand search queryCap deriveId mergeKey authenticity
     marketImpact toISOString now).

(** *** Truncation *)

Lemma truncate_length {A} (maxItems : Z) (xs : list A) :
  Z.of_nat (List.length (truncate maxItems xs)) <= Z.max 0 maxItems.
Proof.
  unfold truncate. rewrite length_firstn. lia.
Qed.

Lemma truncate_nonpositive {A} (maxItems : Z) (xs : list A) :
  maxItems <= 0 -> truncate maxItems xs = [].
Proof.
  intros H. unfold truncate.
  replace (Z.to_nat (Z.max 0 maxItems)) with 0%nat by lia. reflexivity.
Qed.

Lemma truncate_Forall {A} (P : A -> Prop) (maxItems : Z) (xs : list A) :
  Forall P xs -> Forall P (truncate maxItems xs).
Proof.
  intros H. unfold truncate. apply Forall_forall. intros x Hx.
  rewrite Forall_forall in H. apply H.
  rewrite <- (firstn_skipn (Z.to_nat (Z.max 0 maxItems)) xs).
  apply in_or_app. now left.
Qed.

(** C5.  A run that returns a list returns at most [maxItems] items, a
    negative [maxItems] counting as zero, and none at all when [maxItems] is
    zero or less. *)
Theorem gatherNews_bounded_by_maxItems keywords companyTargets timeRange
    (maxItems : Z) (items : list ConsolidatedNewsItem) :
  gatherNews keywords companyTargets timeRange maxItems = Accepted items ->
  Z.of_nat (List.length items) <= Z.max 0 maxItems
  /\ (maxItems <= 0 -> items = []).
Proof.
  unfold News.gatherNews.
  destruct (validate _ _ _); [discriminate|].
  intros H. injection H as <-. unfold aggregate. split.
  - rewrite length_map. apply truncate_length.
  - intros Hle. now rewrite truncate_nonpositive.
Qed.

(** *** Validation *)

(** C6.  A custom range whose start is after its end is rejected by the
    validation: the run returns no result list, empty or not. *)
Theorem gatherNews_rejects_inverted_range keywords companyTargets
    (from to : instant) (maxItems : Z) :
  to < from ->
  exists why,
    gatherNews keywords companyTargets (Explicit from to) maxItems
    = Rejected why.
Proof.
  intros H. unfold News.gatherNews, validate.
  destruct (filter _ keywords); [now eexists|].
  destruct (filter _ companyTargets); [now eexists|].
  cbn [validRange].
  replace (from <=? to) with false by (symmetry; apply Z.leb_gt; lia).
  now eexists.
Qed.

(** *** The time filter *)

Lemma normalize_dated range q r c :
  normalize deriveId now range q r = Some c -> dated (window now range) c.
Proof.
  unfold normalize, dated.
  destruct (raw_publishedAt r) as [t|];
    [|destruct (raw_title r), (raw_url r); discriminate].
  destruct (inWindow (window now range) t) eqn:E;
    [|destruct (raw_title r), (raw_url r); discriminate].
  destruct (raw_title r), (raw_url r); intros H; try discriminate;
    injection H as <-; exact E.
Qed.

Lemma keepSome_In {A} (xs : list (option A)) (x : A) :
  In x (keepSome xs) -> In (Some x) xs.
Proof.
  induction xs as [|[y|] xs IH]; simpl; intros H.
  - contradiction.
  - destruct H as [->|H]; [now left|right; now apply IH].
  - right. now apply IH.
Qed.

Lemma fetchAll_dated range queries :
  Forall (dated (window now range)) (fetchAll search deriveId now range queries).
Proof.
  apply Forall_forall. intros c Hc. unfold fetchAll in Hc.
  apply in_flat_map in Hc as (q & _ & Hc).
  apply keepSome_In, in_map_iff in Hc as (r & Hr & _).
  eapply normalize_dated; eassumption.
Qed.

Lemma mergeInto_dated w c acc :
  dated w c -> Forall (dated w) acc -> Forall (dated w) (mergeInto mergeKey c acc).
Proof.
  intros Hc. induction acc as [|x acc IH]; intros H; simpl.
  - now constructor.
  - inversion H as [|? ? Hx Hacc]; subst.
    destruct (jseqb (mergeKey x) (mergeKey c)).
    + constructor; [exact Hx|exact Hacc].
    + constructor; [exact Hx|now apply IH].
Qed.

Lemma deduplicate_dated w cs :
  Forall (dated w) cs -> Forall (dated w) (deduplicate mergeKey cs).
Proof.
  unfold deduplicate.
  assert (G : forall acc, Forall (dated w) acc -> Forall (dated w) cs ->
                Forall (dated w) (fold_left (fun acc c => mergeInto mergeKey c acc) cs acc)).
  { induction cs as [|c cs IH]; intros acc Hacc Hcs; simpl; [exact Hacc|].
    inversion Hcs as [|? ? Hc Hcs']; subst.
    apply IH; [now apply mergeInto_dated|exact Hcs']. }
  intros H. apply G; [constructor|exact H].
Qed.

Lemma insert_Forall (P : Scored -> Prop) x sorted :
  P x -> Forall P sorted -> Forall P (insert x sorted).
Proof.
  intros Hx. induction sorted as [|y sorted IH]; intros H; simpl.
  - now constructor.
  - inversion H as [|? ? Hy Hs]; subst.
    destruct (precedes x y); constructor; auto.
Qed.

Lemma sort_Forall (P : Scored -> Prop) xs :
  Forall P xs -> Forall P (sort xs).
Proof.
  induction 1 as [|x xs Hx Hxs IH]; simpl; [constructor|].
  now apply insert_Forall.
Qed.

(** C7.  Every item a run returns carries the ISO form of an instant inside
    the requested window: the explicit pair, or the preset counted back from
    the instant of the run. *)
Theorem gatherNews_items_within_range keywords companyTargets timeRange
    (maxItems : Z) (items : list ConsolidatedNewsItem) :
  gatherNews keywords companyTargets timeRange maxItems = Accepted items ->
  forall item, In item items ->
    exists t : instant,
      publishedAt item = toISOString t
      /\ fst (window now timeRange) <= t <= snd (window now timeRange).
Proof.
  unfold News.gatherNews.
  destruct (validate _ _ _); [discriminate|].
  intros H item Hitem. injection H as <-.
  apply in_map_iff in Hitem as (s & <- & Hs).
  exists (cand_publishedAt (candidate s)). split; [reflexivity|].
  assert (F : Forall (fun s => dated (window now timeRange) (candidate s))
                (aggregate maxItems
                   (map (score authenticity marketImpact)
                      (deduplicate mergeKey
                         (fetchAll search deriveId now timeRange
                            (planQueries expand queryCap
                               (filter (fun kw => negb (blank (keyword kw))) keywords)
                               (filter (fun t => negb (blank (url t))) companyTargets)
                               maxItems)))))).
  { unfold aggregate. apply truncate_Forall, sort_Forall.
    apply Forall_map. cbn [score candidate].
    apply deduplicate_dated, fetchAll_dated. }
  rewrite Forall_forall in F. specialize (F s Hs).
  unfold dated, inWindow in F. apply andb_true_iff in F as [Hlo Hhi].
  apply Z.leb_le in Hlo, Hhi. lia.
Qed.

End Pipeline.

(** The scenario of section 8 runs to exactly one item that carries both the
    keyword and the company. *)
Example scenario_one_merged_item :
  scenarioRun (Named P7d) 5 = Accepted [scenarioItem].
Proof. vm_compute. reflexivity. Qed.

(** C5 on the scenario. *)
Lemma gatherNews_bounded_scenario :
  Z.of_nat (List.length [scenarioItem]) <= Z.max 0 5
  /\ (5 <= 0 -> [scenarioItem] = []).
Proof.
  apply (gatherNews_bounded_by_maxItems (fun _ => []) scenarioSearch
           (fun _ => 8%nat)
           (fun r => match raw_url r with Some u => u | None => [] end)
           cand_url (fun _ => 70) (fun _ => 55) scenarioISO scenarioNow
           [scenarioRow] [scenarioTarget] (Named P7d) 5 [scenarioItem]).
  vm_compute. reflexivity.
Defined.

(** C6 on the scenario, asked for a range that ends a day before it starts. *)
Lemma gatherNews_rejects_inverted_scenario :
  exists why,
    scenarioRun (Explicit scenarioNow (scenarioNow - 86400000)) 5 = Rejected why.
Proof.
  apply (gatherNews_rejects_inverted_range (fun _ => []) scenarioSearch
           (fun _ => 8%nat)
           (fun r => match raw_url r with Some u => u | None => [] end)
           cand_url (fun _ => 70) (fun _ => 55) scenarioISO scenarioNow
           [scenarioRow] [scenarioTarget]
           scenarioNow (scenarioNow - 86400000) 5).
  unfold scenarioNow. lia.
Defined.

(** C7 on the scenario. *)
Lemma gatherNews_within_range_scenario :
  exists t : instant,
    publishedAt scenarioItem = scenarioISO t
    /\ fst (window scenarioNow (Named P7d)) <= t
       <= snd (window scenarioNow (Named P7d)).
Proof.
  apply (gatherNews_items_within_range (fun _ => []) scenarioSearch
           (fun _ => 8%nat)
           (fun r => match raw_url r with Some u => u | None => [] end)
           cand_url (fun _ => 70) (fun _ => 55) scenarioISO scenarioNow
           [scenarioRow] [scenarioTarget] (Named P7d) 5 [scenarioItem]).
  - vm_compute. reflexivity.
  - simpl. now left.
Defined.

End NewsFacts.

(* ===================================================================== *)
(** ** The [POST] handler on arbitrary bodies *)
(* ===================================================================== *)

Module RouteAnyBody.

Import Route.

Import RouteBody.

Lemma nonBlank_run field row tr :
  nonBlank field row tr
  = match textOf field row with
    | Some s => (Returned (negb (blank s)), tr)
    | None => (Thrown TypeError, tr)
    end.
Proof.
  unfold nonBlank, textOf, bind, getProp.
  destruct row as [ | b | n | s | items | fields ]; try reflexivity.
  cbn [ret]. destruct (assoc field fields) as [[ | b | n | s | items | fs ]|];
    try reflexivity.
  cbn [String_trim ret]. now rewrite trim_length_pos.
Qed.

Lemma filterM_run field items tr :
  filterM (nonBlank field) items tr
  = if forallb (hasText field) items
    then (Returned (filter (keepsRow field) items), tr)
    else (Thrown TypeError, tr).
Proof.
  induction items as [|row items IH]; [reflexivity|].
  cbn [filterM forallb filter]. unfold bind at 1. rewrite nonBlank_run.
  unfold hasText at 1, keepsRow at 1.
  destruct (textOf field row) as [s|]; [|reflexivity].
  unfold bind. rewrite IH. cbn [andb].
  destruct (forallb (hasText field) items); [|reflexivity].
  unfold ret. now destruct (negb (blank s)).
Qed.

Lemma Array_filter_run field v tr :
  Array_filter v (nonBlank field) tr
  = match filtered field v with
    | Some kept => (Returned kept, tr)
    | None => (Thrown TypeError, tr)
    end.
Proof.
  unfold Array_filter, filtered.
  destruct v as [[ | b | n | s | items | fields ]|]; try reflexivity.
  rewrite filterM_run. now destruct (forallb (hasText field) items).
Qed.

Lemma getProp_run j k tr :
  getProp (Some j) k tr
  = match j with
    | JNull => (Thrown TypeError, tr)
    | _ => (Returned (prop j k), tr)
    end.
Proof. now destruct j. Qed.

(** The whole run of the handler, for any request and any pipeline. *)
Lemma run_POST_any gatherNews (request : Request) :
  run_POST gatherNews request
  = match request_json request with
    | Thrown e => (Returned failed, [logged e])
    | Returned j =>
        match arguments j with
        | None => (Returned failed, [logged TypeError])
        | Some c =>
            let call := GatherNews (call_keywords c) (call_companyTargets c)
                          (call_timeRange c) (call_maxItems c) in
            match gatherNews (call_keywords c) (call_companyTargets c)
                    (call_timeRange c) (call_maxItems c) with
            | Returned results =>
                (Returned {| status := 200; body := Results results |}, [call])
            | Thrown e => (Returned failed, [call; logged e])
            end
        end
    end.
Proof.
  unfold run_POST, POST, try_catch, await_json.
  destruct (request_json request) as [j|e]; [|reflexivity].
  unfold bind at 1. cbn [ret].
  unfold bind at 1. rewrite getProp_run.
  destruct j as [ | b | n | s | items | fields ]; try reflexivity;
    unfold arguments;
    (unfold bind at 1; rewrite Array_filter_run;
     destruct (filtered (lit "keyword") _) as [kws|]; [|reflexivity];
     unfold bind at 1; rewrite getProp_run;
     unfold bind at 1; rewrite Array_filter_run;
     destruct (filtered (lit "url") _) as [tgs|]; [|reflexivity];
     unfold bind at 1; rewrite getProp_run;
     unfold bind at 1; rewrite getProp_run;
     cbn [call_keywords call_companyTargets call_timeRange call_maxItems];
     unfold await_gatherNews, bind, emit, ret, throw; cbn [app];
     now destruct (gatherNews _ _ _ _)).
Qed.

Lemma filtered_some field v kept :
  filtered field v = Some kept ->
  exists items,
    v = Some (JArray items)
    /\ forallb (hasText field) items = true
    /\ kept = filter (keepsRow field) items.
Proof.
  unfold filtered.
  destruct v as [[ | b | n | s | items | fields ]|]; try discriminate.
  destruct (forallb (hasText field) items) eqn:F; [|discriminate].
  intros H. injection H as <-. now exists items.
Qed.

Lemma arguments_some j c :
  arguments j = Some c ->
  exists kws tgs,
    filtered (lit "keyword") (prop j (lit "keywords")) = Some kws
    /\ filtered (lit "url") (prop j (lit "companyTargets")) = Some tgs
    /\ c = {| call_keywords := kws;
              call_companyTargets := tgs;
              call_timeRange := prop j (lit "timeRange");
              call_maxItems := nullish (prop j (lit "maxItems")) (JNumber 100) |}.
Proof.
  unfold arguments.
  destruct (filtered (lit "keyword") (prop j (lit "keywords"))) as [kws|];
    [|destruct j; discriminate].
  destruct (filtered (lit "url") (prop j (lit "companyTargets"))) as [tgs|];
    [|destruct j; discriminate].
  intros H. exists kws, tgs.
  destruct j; try discriminate; injection H as <-; now repeat split.
Qed.

(** The one call in the trace of a run that got as far as the pipeline. *)
Lemma the_call gatherNews (request : Request) (call : Call) :
  In call (pipeline_calls (snd (run_POST gatherNews request))) ->
  exists j, request_json request = Returned j /\ arguments j = Some call.
Proof.
  rewrite run_POST_any.
  destruct (request_json request) as [j|e]; [|cbn; tauto].
  destruct (arguments j) as [c|] eqn:A; [|cbn; tauto].
  intros H. exists j. split; [reflexivity|].
  cbv zeta in H. destruct (gatherNews _ _ _ _); cbn in H;
    destruct H as [H|[]]; subst call; now destruct c.
Qed.

(** X1.  Whatever the request and the pipeline, the handler calls the
    pipeline at most once; a 200 answer comes with exactly one call and no
    [console.error], a 500 answer with exactly one [console.error]. *)
Theorem POST_logs_exactly_the_failures gatherNews (request : Request) :
  exists response tr,
    run_POST gatherNews request = (Returned response, tr)
    /\ (List.length (pipeline_calls tr) <= 1)%nat
    /\ ((status response = 200%Z
         /\ List.length (pipeline_calls tr) = 1%nat
         /\ console_errors tr = [])
        \/ (status response = 500%Z
            /\ exists e, console_errors tr = [e])).
Proof.
  rewrite run_POST_any.
  destruct (request_json request) as [j|e].
  - destruct (arguments j) as [c|].
    + cbv zeta. destruct (gatherNews _ _ _ _) as [rs|e]; eexists _, _;
        (split; [reflexivity|]); (split; [cbn; lia|]).
      * left. now repeat split.
      * right. split; [reflexivity|]. now exists e.
    + eexists _, _. split; [reflexivity|]. split; [cbn; lia|].
      right. split; [reflexivity|]. now eexists.
  - eexists _, _. split; [reflexivity|]. split; [cbn; lia|].
    right. split; [reflexivity|]. now exists e.
Qed.

(** X2.  Once the pipeline has been called, its outcome alone decides the
    answer: a result list is returned as it is, with status 200, and an
    exception is logged as thrown and answered with the generic 500. *)
Theorem POST_answer_is_pipeline_outcome gatherNews (request : Request)
    kws tgs r m :
  In (GatherNews kws tgs r m) (snd (run_POST gatherNews request)) ->
  match gatherNews kws tgs r m with
  | Returned rs =>
      run_POST gatherNews request
      = (Returned {| status := 200; body := Results rs |},
         [ GatherNews kws tgs r m ])
  | Thrown e =>
      run_POST gatherNews request
      = (Returned failed, [ GatherNews kws tgs r m; logged e ])
  end.
Proof.
  rewrite run_POST_any.
  destruct (request_json request) as [j|e].
  - destruct (arguments j) as [c|].
    + cbv zeta.
      destruct (gatherNews (call_keywords c) _ _ _) as [rs|e] eqn:G;
        cbn [snd In]; intros [H|H]; try contradiction;
        try (destruct H as [H|H]; [discriminate|contradiction]);
        injection H as <- <- <- <-; now rewrite G.
    + cbn. intros [H|[]]. discriminate.
  - cbn. intros [H|[]]. discriminate.
Qed.

(** X3.  For a body of any shape, the pipeline is called only when
    [keywords] and [companyTargets] are arrays whose elements are all objects
    with a string under [keyword], respectively [url]; it then receives the
    elements whose string is not blank, themselves and in their order. *)
Theorem POST_filters_rows_of_any_body gatherNews (request : Request)
    (call : Call) :
  In call (pipeline_calls (snd (run_POST gatherNews request))) ->
  exists j kwItems tgItems,
    request_json request = Returned j
    /\ prop j (lit "keywords") = Some (JArray kwItems)
    /\ prop j (lit "companyTargets") = Some (JArray tgItems)
    /\ forallb (hasText (lit "keyword")) kwItems = true
    /\ forallb (hasText (lit "url")) tgItems = true
    /\ call_keywords call = filter (keepsRow (lit "keyword")) kwItems
    /\ call_companyTargets call = filter (keepsRow (lit "url")) tgItems.
Proof.
  intros H. apply the_call in H as (j & Hj & A).
  apply arguments_some in A as (kws & tgs & K & T & ->).
  apply filtered_some in K as (kwItems & K & FK & ->).
  apply filtered_some in T as (tgItems & T & FT & ->).
  exists j, kwItems, tgItems. now repeat split.
Qed.

(** X4.  The handler checks neither [timeRange] nor [maxItems]: the time
    range is passed as received, [undefined] when the body has none; a
    [maxItems] of any JSON type other than [null] is passed unchanged, and
    only an absent or [null] one becomes 100, so that the pipeline never
    receives [null]. *)
Theorem POST_passes_range_and_cap_unchecked gatherNews (request : Request)
    (call : Call) :
  In call (pipeline_calls (snd (run_POST gatherNews request))) ->
  exists j,
    request_json request = Returned j
    /\ call_timeRange call = prop j (lit "timeRange")
    /\ call_maxItems call <> JNull
    /\ (forall v, prop j (lit "maxItems") = Some v -> v <> JNull ->
                  call_maxItems call = v)
    /\ (prop j (lit "maxItems") = None \/ prop j (lit "maxItems") = Some JNull ->
        call_maxItems call = JNumber 100).
Proof.
  intros H. apply the_call in H as (j & Hj & A).
  apply arguments_some in A as (kws & tgs & _ & _ & ->).
  exists j. split; [exact Hj|]. cbn [call_timeRange call_maxItems].
  split; [reflexivity|].
  destruct (prop j (lit "maxItems")) as [v|]; cbn [nullish].
  - split; [|split].
    + destruct v; discriminate.
    + intros v' Hv Hn. injection Hv as <-. destruct v; congruence.
    + intros [H|H]; [discriminate|]. now injection H as ->.
  - split; [|split].
    + discriminate.
    + intros v H. discriminate.
    + reflexivity.
Qed.

(** X2 on the loose body: the pipeline returns no news, the answer is 200. *)
Lemma POST_answer_is_pipeline_outcome_loose :
  run_POST noNews {| request_json := Returned looseBody |}
  = (Returned {| status := 200; body := Results [] |},
     [ GatherNews (call_keywords looseCall) (call_companyTargets looseCall)
         (call_timeRange looseCall) (call_maxItems looseCall) ]).
Proof.
  apply (POST_answer_is_pipeline_outcome noNews
           {| request_json := Returned looseBody |}
           (call_keywords looseCall) (call_companyTargets looseCall)
           (call_timeRange looseCall) (call_maxItems looseCall)).
  vm_compute. left. reflexivity.
Defined.

(** X3 on the loose body: the blank keyword row is dropped. *)
Lemma POST_filters_rows_of_loose_body :
  exists j kwItems tgItems,
    Returned looseBody = Returned j
    /\ prop j (lit "keywords") = Some (JArray kwItems)
    /\ prop j (lit "companyTargets") = Some (JArray tgItems)
    /\ forallb (hasText (lit "keyword")) kwItems = true
    /\ forallb (hasText (lit "url")) tgItems = true
    /\ call_keywords looseCall = filter (keepsRow (lit "keyword")) kwItems
    /\ call_companyTargets looseCall = filter (keepsRow (lit "url")) tgItems.
Proof.
  apply (POST_filters_rows_of_any_body noNews
           {| request_json := Returned looseBody |} looseCall).
  vm_compute. left. reflexivity.
Defined.

(** X4 on the loose body: the number 7 and the string reach the pipeline. *)
Lemma POST_passes_range_and_cap_loose :
  exists j,
    Returned looseBody = Returned j
    /\ call_timeRange looseCall = prop j (lit "timeRange")
    /\ call_maxItems looseCall <> JNull
    /\ (forall v, prop j (lit "maxItems") = Some v -> v <> JNull ->
                  call_maxItems looseCall = v)
    /\ (prop j (lit "maxItems") = None \/ prop j (lit "maxItems") = Some JNull ->
        call_maxItems looseCall = JNumber 100).
Proof.
  apply (POST_passes_range_and_cap_unchecked noNews
           {| request_json := Returned looseBody |} looseCall).
  vm_compute. left. reflexivity.
Defined.

End RouteAnyBody.

(* ===================================================================== *)
(** ** More on the result filter *)
(* ===================================================================== *)

Module FilterFacts.

Import Page Home.

(** *** [trim] is idempotent *)

Lemma trimStart_idempotent (s : jsstring) : trimStart (trimStart s) = trimStart s.
Proof.
  induction s as [|c s IH]; [reflexivity|].
  simpl. destruct (isWhiteSpace c) eqn:E; [exact IH|].
  simpl. now rewrite E.
Qed.

(** Trimming the end leaves a prefix. *)
Lemma trimEnd_prefix (s : jsstring) :
  exists ws, s = trimEnd s ++ ws /\ blank ws = true.
Proof.
  unfold trimEnd. destruct (trimStart_suffix (rev s)) as (ws & E & B).
  exists (rev ws). split.
  - rewrite <- rev_app_distr, <- E. symmetry. apply rev_involutive.
  - now rewrite blank_rev.
Qed.

Lemma trimStart_trimEnd (s : jsstring) :
  trimStart s = s -> trimStart (trimEnd s) = trimEnd s.
Proof.
  intros H. destruct (trimEnd_prefix s) as (ws & E & _).
  destruct (trimEnd s) as [|c t] eqn:T; [reflexivity|].
  rewrite E in H. simpl in H. simpl.
  destruct (isWhiteSpace c); [|reflexivity].
  exfalso.
  assert (L : (List.length (trimStart (t ++ ws)) <= List.length (t ++ ws))%nat).
  { generalize (t ++ ws). intros l. induction l as [|x l IH]; simpl; [lia|].
    destruct (isWhiteSpace x); simpl; lia. }
  rewrite H in L. simpl in L. lia.
Qed.

Lemma trimEnd_idempotent (s : jsstring) : trimEnd (trimEnd s) = trimEnd s.
Proof.
  unfold trimEnd. now rewrite rev_involutive, trimStart_idempotent.
Qed.

Lemma trim_idempotent (s : jsstring) : trim (trim s) = trim s.
Proof.
  unfold trim.
  rewrite (trimStart_trimEnd (trimStart s) (trimStart_idempotent s)).
  apply trimEnd_idempotent.
Qed.

Section View.

Variable toLowerCase : jsstring -> jsstring.
Variable Date_getTime : jsstring -> option Z.

Local Abbreviation keeps := (keeps toLowerCase Date_getTime).
Local Abbreviation filteredResults := (filteredResults toLowerCase Date_getTime).

Lemma filterFrom_ext {A} (cb1 cb2 : A -> nat -> bool) (xs : list A) :
  forall index,
    (forall x i, cb1 x i = cb2 x i) ->
    filterFrom cb1 index xs = filterFrom cb2 index xs.
Proof.
  induction xs as [|x xs IH]; intros index H; simpl; [reflexivity|].
  now rewrite H, (IH (S index) H).
Qed.

Lemma filterFrom_In {A} (cb : A -> nat -> bool) (xs : list A) (x : A) :
  forall index,
    In x xs -> (forall i, cb x i = true) -> In x (filterFrom cb index xs).
Proof.
  induction xs as [|y xs IH]; intros index Hin Hcb; simpl; [contradiction|].
  destruct Hin as [->|Hin].
  - rewrite Hcb. now left.
  - destruct (cb y index); [right|]; now apply IH.
Qed.

Lemma filterFrom_const {A} (p : A -> bool) (xs : list A) :
  forall index, filterFrom (fun x _ => p x) index xs = filter p xs.
Proof.
  induction xs as [|x xs IH]; intros index; simpl; [reflexivity|].
  now rewrite IH.
Qed.

(** The recency test alone: a wider window accepts what a narrower accepts. *)
Lemma keeps_wider (f : FiltersState) (narrow wide : TimeWindow) now item :
  isAll wide = true
  \/ (isAll narrow = false /\ (windowLimit narrow <= windowLimit wide)%Z) ->
  keeps (withTimeWindow narrow f) now item = true ->
  keeps (withTimeWindow wide f) now item = true.
Proof.
  intros Hw. unfold Page.keeps. cbn [withTimeWindow filter_keyword filter_company
    searchTerm minAuthentic minImpact timeWindow].
  repeat match goal with
         | |- context [ if ?c then false else _ ] =>
             lazymatch c with
             | context [ isAll ] => fail
             | _ => destruct c; [ intros; assumption | ]
             end
         end.
  destruct Hw as [Hw|[Hn Hle]].
  - now rewrite Hw.
  - rewrite Hn. cbn [negb andb].
    destruct (Date_getTime (publishedAt item)) as [published|];
      [|now rewrite andb_false_r].
    destruct (windowLimit narrow <? now - published)%Z eqn:E; [discriminate|].
    intros _. apply Z.ltb_ge in E.
    replace (windowLimit wide <? now - published)%Z with false
      by (symmetry; apply Z.ltb_ge; lia).
    now rewrite andb_false_r.
Qed.

(** X5.  With the clock and everything else fixed, the recency windows are
    nested: what "last 24 hours" shows is among what "last 3 days" shows,
    that among "last 7 days", and that among "within monitoring window". *)
Theorem filteredResults_windows_nested (clock : nat -> Z) (f : FiltersState)
    (results : list ConsolidatedNewsItem) :
  incl (filteredResults clock (withTimeWindow Window24h f) results)
       (filteredResults clock (withTimeWindow Window3d f) results)
  /\ incl (filteredResults clock (withTimeWindow Window3d f) results)
          (filteredResults clock (withTimeWindow Window7d f) results)
  /\ incl (filteredResults clock (withTimeWindow Window7d f) results)
          (filteredResults clock (withTimeWindow WindowAll f) results).
Proof.
  unfold Page.filteredResults.
  split; [|split]; apply PageFacts.filterFrom_incl; intros item i;
    apply keeps_wider.
  - right. split; [reflexivity|]. cbn. lia.
  - right. split; [reflexivity|]. cbn. lia.
  - now left.
Qed.

(** X6.  An item whose date does not parse, or does not lie in the past, is
    never dropped for its age: every recency window treats it as
    "within monitoring window" does. *)
Theorem keeps_unparsed_or_future_date (f : FiltersState) (w : TimeWindow)
    (now : Z) (item : ConsolidatedNewsItem) :
  match Date_getTime (publishedAt item) with
  | None => True
  | Some published => (now <= published)%Z
  end ->
  keeps (withTimeWindow w f) now item
  = keeps (withTimeWindow WindowAll f) now item.
Proof.
  intros H. unfold Page.keeps. cbn [withTimeWindow filter_keyword filter_company
    searchTerm minAuthentic minImpact timeWindow isAll negb andb].
  destruct (Date_getTime (publishedAt item)) as [published|].
  - replace (windowLimit w <? now - published)%Z with false
      by (symmetry; apply Z.ltb_ge; destruct w; cbn; lia).
    now rewrite andb_false_r.
  - now rewrite andb_false_r.
Qed.

(** X7.  White space around the search term does not count: a term and its
    trimmed form select the same results, so a term of blanks only selects
    what the empty term selects. *)
Theorem filteredResults_searchTerm_trimmed (clock : nat -> Z)
    (f : FiltersState) (term : jsstring)
    (results : list ConsolidatedNewsItem) :
  filteredResults clock (withSearchTerm term f) results
  = filteredResults clock (withSearchTerm (trim term) f) results.
Proof.
  unfold Page.filteredResults. apply filterFrom_ext. intros item i.
  unfold Page.keeps. cbn [withSearchTerm filter_keyword filter_company
    searchTerm minAuthentic minImpact timeWindow].
  now rewrite trim_idempotent.
Qed.

(** X8.  Filtering is idempotent at one instant: passing the filtered list
    through the same filter again removes nothing. *)
Theorem filteredResults_idempotent (now : Z) (f : FiltersState)
    (results : list ConsolidatedNewsItem) :
  filteredResults (fun _ => now) f (filteredResults (fun _ => now) f results)
  = filteredResults (fun _ => now) f results.
Proof.
  unfold Page.filteredResults.
  rewrite !(filterFrom_const (fun item => keeps f now item)).
  induction results as [|item results IH]; [reflexivity|].
  simpl. destruct (keeps f now item) eqn:E; [|exact IH].
  simpl. now rewrite E, IH.
Qed.

End View.

End FilterFacts.

(* ===================================================================== *)
(** ** The option lists and the preview table *)
(* ===================================================================== *)

Module OptionFacts.

Import Page Home.

Lemma arrayIncludes_In (xs : list jsstring) (x : jsstring) :
  arrayIncludes xs x = true <-> In x xs.
Proof.
  unfold arrayIncludes. rewrite existsb_exists. split.
  - intros (y & Hy & E). apply jseqb_eq in E. now subst.
  - intros H. exists x. split; [exact H|apply jseqb_refl].
Qed.

Lemma Set_add_In (set : list jsstring) (x y : jsstring) :
  In y (Set_add set x) <-> In y set \/ y = x.
Proof.
  unfold Set_add. destruct (arrayIncludes set x) eqn:E.
  - apply arrayIncludes_In in E. split; [now left|].
    intros [H| ->]; assumption.
  - rewrite in_app_iff. simpl. intuition.
Qed.

Lemma Set_add_NoDup (set : list jsstring) (x : jsstring) :
  NoDup set -> NoDup (Set_add set x).
Proof.
  intros H. unfold Set_add. destruct (arrayIncludes set x) eqn:E; [exact H|].
  assert (Hx : ~ In x set).
  { intros Hin. apply arrayIncludes_In in Hin. congruence. }
  clear E. induction H as [|y set Hy Hset IH]; simpl.
  - constructor; [intros []|constructor].
  - constructor.
    + rewrite in_app_iff. simpl. intros [H|[H|[]]]; [now apply Hy|].
      subst. apply Hx. now left.
    + apply IH. intros Hin. apply Hx. now right.
Qed.

Lemma fold_Set_add_In (xs set : list jsstring) (y : jsstring) :
  In y (fold_left Set_add xs set) <-> In y set \/ In y xs.
Proof.
  revert set. induction xs as [|x xs IH]; intros set; simpl.
  - intuition.
  - rewrite IH, Set_add_In. intuition.
Qed.

Lemma fold_Set_add_NoDup (xs set : list jsstring) :
  NoDup set -> NoDup (fold_left Set_add xs set).
Proof.
  revert set. induction xs as [|x xs IH]; intros set H; simpl; [exact H|].
  now apply IH, Set_add_NoDup.
Qed.

(** X9.  The keyword options list every keyword of the rows once: no
    keyword is offered twice, and a keyword is offered exactly when some row
    has it. *)
Theorem keywordOptions_distinct_and_complete (rows : list KeywordSourceRow) :
  NoDup (keywordOptions rows)
  /\ forall k, In k (keywordOptions rows)
               <-> exists row, In row rows /\ keyword row = k.
Proof.
  unfold keywordOptions, Array_from_Set. split.
  - apply fold_Set_add_NoDup. constructor.
  - intros k. rewrite fold_Set_add_In, in_map_iff. simpl. split.
    + intros [[]|(row & E & H)]. now exists row.
    + intros (row & H & E). right. now exists row.
Qed.

Lemma companyOptions_fold (results : list ConsolidatedNewsItem)
    (set : list jsstring) :
  (NoDup set ->
   NoDup (fold_left (fun companies item =>
                       fold_left Set_add (companyMatches item) companies)
                    results set))
  /\ forall c,
       In c (fold_left (fun companies item =>
                          fold_left Set_add (companyMatches item) companies)
                       results set)
       <-> In c set \/ exists item, In item results /\ In c (companyMatches item).
Proof.
  revert set. induction results as [|item results IH]; intros set; simpl.
  - split; [trivial|]. intros c. split; [now left|].
    intros [H|(item & [] & _)]. exact H.
  - destruct (IH (fold_left Set_add (companyMatches item) set)) as [IH1 IH2].
    split.
    + intros H. now apply IH1, fold_Set_add_NoDup.
    + intros c. rewrite IH2, fold_Set_add_In. split.
      * intros [[H|H]|(it & Hit & Hc)].
        -- now left.
        -- right. exists item. split; [now left|exact H].
        -- right. exists it. split; [now right|exact Hc].
      * intros [H|(it & [<-|Hit] & Hc)].
        -- left. now left.
        -- left. now right.
        -- right. now exists it.
Qed.

(** X10.  The company options list every company matched by some result
    once: no company is offered twice, and a company is offered exactly when
    some result lists it among its matches. *)
Theorem companyOptions_distinct_and_complete
    (results : list ConsolidatedNewsItem) :
  NoDup (companyOptions results)
  /\ forall c, In c (companyOptions results)
               <-> exists item, In item results /\ In c (companyMatches item).
Proof.
  unfold companyOptions.
  destruct (companyOptions_fold results []) as [H1 H2]. split.
  - apply H1. constructor.
  - intros c. rewrite H2. simpl. intuition.
Qed.

Section View.

Variable toLowerCase : jsstring -> jsstring.
Variable Date_getTime : jsstring -> option Z.
Variable format : jsstring -> option jsstring.

(** X11.  No company option is dead: with the other filters at their
    defaults and scores that are not negative, choosing any offered company
    shows at least one result. *)
Theorem company_option_shows_a_result (clock : nat -> Z)
    (results : list ConsolidatedNewsItem) (c : jsstring) :
  In c (companyOptions results) ->
  Forall (fun item => (0 <= authenticScore item)%Z
                      /\ (0 <= marketImpactScore item)%Z) results ->
  filteredResults toLowerCase Date_getTime clock
    (withCompany c EMPTY_FILTERS) results <> [].
Proof.
  intros Hc Hs.
  unfold companyOptions in Hc.
  apply (proj2 (companyOptions_fold results [])) in Hc
    as [[]|(item & Hitem & Hin)].
  rewrite Forall_forall in Hs. destruct (Hs item Hitem) as [Ha Hi].
  assert (K : In item (filteredResults toLowerCase Date_getTime clock
                         (withCompany c EMPTY_FILTERS) results)).
  { unfold filteredResults. apply FilterFacts.filterFrom_In; [exact Hitem|].
    intros i. unfold keeps.
    cbn [withCompany EMPTY_FILTERS filter_keyword filter_company searchTerm
         minAuthentic minImpact timeWindow].
    change (jseqb (lit "all") (lit "all")) with true.
    apply arrayIncludes_In in Hin. rewrite Hin.
    cbn [negb andb]. rewrite andb_false_r.
    change (0 <? jslength (trim (lit "")))%Z with false. cbn [andb].
    replace (authenticScore item <? 0)%Z with false
      by (symmetry; apply Z.ltb_ge; lia).
    replace (marketImpactScore item <? 0)%Z with false
      by (symmetry; apply Z.ltb_ge; lia).
    reflexivity. }
  intros E. rewrite E in K. contradiction.
Qed.

(** X12.  The preview has one row for each of the first 12 filtered items
    and no more, every row has one cell per selected column, and the note
    about the top 12 is shown exactly when some filtered item has no row. *)
Theorem newsletterPreview_rows_cells_note
    (selectedColumns : list NewsletterColumn)
    (filtered : list ConsolidatedNewsItem) :
  List.length (newsletterPreview format selectedColumns filtered)
  = Nat.min 12 (List.length filtered)
  /\ Forall (fun row => List.length (cells row) = List.length selectedColumns)
            (newsletterPreview format selectedColumns filtered)
  /\ (showsTruncationNote filtered = true
      <-> (List.length (newsletterPreview format selectedColumns filtered)
           < List.length filtered)%nat).
Proof.
  assert (E : newsletterPreview format selectedColumns filtered
              = map (newsletterRow format selectedColumns) (firstn 12 filtered)).
  { unfold newsletterPreview. change 12%Z with (Z.of_nat 12).
    now rewrite PageFacts.Array_slice_0. }
  assert (Len : List.length (newsletterPreview format selectedColumns filtered)
                = Nat.min 12 (List.length filtered)).
  { rewrite E, length_map. apply length_firstn. }
  split; [exact Len|]. split.
  - rewrite E. apply Forall_forall. intros row Hrow.
    apply in_map_iff in Hrow as (item & <- & _).
    unfold newsletterRow. cbn [cells]. apply length_map.
  - rewrite Len. unfold showsTruncationNote. rewrite Z.ltb_lt. lia.
Qed.

End View.

End OptionFacts.

(* ===================================================================== *)
(** ** The updates of the state of [Home] *)
(* ===================================================================== *)

Module HomeFacts.

Import Route Page Home.

(** *** Keyword rows *)

Lemma filter_partition_length {A} (p : A -> bool) (xs : list A) :
  (List.length (filter (fun x => negb (p x)) xs) + List.length (filter p xs)
   = List.length xs)%nat.
Proof.
  induction xs as [|x xs IH]; simpl; [reflexivity|].
  destruct (p x); simpl; lia.
Qed.

(** X13.  [removeKeyword] removes every row that has the keyword, however
    many there are, and nothing else: the rows left are those of another
    keyword, and the length drops by the number of rows with the keyword. *)
Theorem removeKeyword_removes_every_match (k : jsstring)
    (prev : list KeywordSourceRow) :
  (forall row, In row (removeKeyword k prev)
               <-> In row prev /\ keyword row <> k)
  /\ (List.length (removeKeyword k prev)
       + List.length (filter (fun row => jseqb (keyword row) k) prev)
      = List.length prev)%nat.
Proof.
  split.
  - intros row. unfold removeKeyword. rewrite filter_In.
    split; intros [H1 H2]; (split; [exact H1|]).
    + intros E. apply jseqb_eq in E. now rewrite E in H2.
    + destruct (jseqb (keyword row) k) eqn:E; [|reflexivity].
      apply jseqb_eq in E. contradiction.
  - unfold removeKeyword.
    apply (filter_partition_length (fun row => jseqb (keyword row) k)).
Qed.

Lemma Array_set_length {A} (x : A) (xs : list A) :
  forall index, List.length (Array_set index x xs) = List.length xs.
Proof.
  induction xs as [|y xs IH]; intros [|i]; simpl; auto.
Qed.

Lemma Array_set_nth_same {A} (x : A) (xs : list A) :
  forall index, (index < List.length xs)%nat ->
                nth_error (Array_set index x xs) index = Some x.
Proof.
  induction xs as [|y xs IH]; intros [|i] H; simpl in *; try lia.
  - reflexivity.
  - apply IH. lia.
Qed.

Lemma Array_set_nth_other {A} (x : A) (xs : list A) :
  forall index i, i <> index ->
                  nth_error (Array_set index x xs) i = nth_error xs i.
Proof.
  induction xs as [|y xs IH]; intros [|index] [|i] H; simpl; auto;
    try congruence.
Qed.

(** X14.  An edit of one row leaves the number of rows and every other row
    as they were, and replaces the edited row by itself with the one field
    changed. *)
Theorem updateKeyword_changes_one_row (index : nat) (field : KeywordField)
    (value : jsstring) (prev next : list KeywordSourceRow) :
  updateKeyword index field value prev = Some next ->
  List.length next = List.length prev
  /\ (forall i, i <> index -> nth_error next i = nth_error prev i)
  /\ exists row,
       nth_error prev index = Some row
       /\ nth_error next index = Some (setKeywordField field value row).
Proof.
  unfold updateKeyword. destruct (nth_error prev index) as [row|] eqn:E;
    [|discriminate].
  intros H. injection H as <-. split; [apply Array_set_length|]. split.
  - intros i Hi. now apply Array_set_nth_other.
  - exists row. split; [reflexivity|].
    apply Array_set_nth_same. apply nth_error_Some. congruence.
Qed.

(** X14 on the sample rows: renaming the second row. *)
Lemma updateKeyword_changes_one_row_sample :
  List.length (Array_set 1 (setKeywordField FieldKeyword (lit "etanercept")
                              newKeywordRow) sampleRows)
  = List.length sampleRows
  /\ (forall i, i <> 1%nat ->
        nth_error (Array_set 1 (setKeywordField FieldKeyword (lit "etanercept")
                                  newKeywordRow) sampleRows) i
        = nth_error sampleRows i)
  /\ exists row,
       nth_error sampleRows 1 = Some row
       /\ nth_error (Array_set 1 (setKeywordField FieldKeyword (lit "etanercept")
                                    newKeywordRow) sampleRows) 1
          = Some (setKeywordField FieldKeyword (lit "etanercept") row).
Proof.
  apply (updateKeyword_changes_one_row 1 FieldKeyword (lit "etanercept")
           sampleRows).
  reflexivity.
Defined.

(** *** Company targets *)

(** X15.  Removing the target that was just added gives back the list there
    was, provided the new id is not the id of an older target. *)
Theorem removeCompanyTarget_undoes_add (newId : jsstring)
    (prev : list CompanyTarget) :
  ~ In newId (map target_id prev) ->
  removeCompanyTarget newId (addCompanyTarget newId prev) = prev.
Proof.
  intros H. unfold removeCompanyTarget, addCompanyTarget.
  rewrite filter_app. cbn [filter target_id]. rewrite jseqb_refl.
  cbn [negb]. rewrite app_nil_r.
  induction prev as [|t prev IH]; [reflexivity|].
  simpl. destruct (jseqb (target_id t) newId) eqn:E.
  - apply jseqb_eq in E. exfalso. apply H. now left.
  - simpl. f_equal. apply IH. intros Hin. apply H. now right.
Qed.

Lemma removeCompanyTarget_undoes_add_sample :
  removeCompanyTarget (lit "t3") (addCompanyTarget (lit "t3") sampleTargets)
  = sampleTargets.
Proof.
  apply removeCompanyTarget_undoes_add.
  simpl. intros [H|[H|[]]]; discriminate.
Defined.

(** X16.  An edit of a target's label or URL keeps the ids of the list, in
    their order, and leaves the targets of any other id as they were. *)
Theorem updateCompanyTarget_keeps_ids_and_others (i : jsstring)
    (field : TargetField) (value : jsstring) (prev : list CompanyTarget) :
  field <> FieldId ->
  map target_id (updateCompanyTarget i field value prev) = map target_id prev
  /\ removeCompanyTarget i (updateCompanyTarget i field value prev)
     = removeCompanyTarget i prev.
Proof.
  intros Hf. unfold updateCompanyTarget, removeCompanyTarget.
  induction prev as [|t prev [IH1 IH2]]; [now split|].
  cbn [map filter].
  assert (Hid : target_id (if jseqb (target_id t) i
                           then setTargetField field value t else t)
                = target_id t).
  { destruct (jseqb (target_id t) i); [|reflexivity].
    destruct field; [contradiction| |]; reflexivity. }
  rewrite Hid. split; [now rewrite IH1|].
  destruct (jseqb (target_id t) i) eqn:E; cbn [negb]; rewrite IH2; reflexivity.
Qed.

Lemma updateCompanyTarget_keeps_ids_sample :
  map target_id
      (updateCompanyTarget (lit "t2") FieldUrl (lit "https://sandoz.com")
         sampleTargets)
  = map target_id sampleTargets
  /\ removeCompanyTarget (lit "t2")
       (updateCompanyTarget (lit "t2") FieldUrl (lit "https://sandoz.com")
          sampleTargets)
     = removeCompanyTarget (lit "t2") sampleTargets.
Proof.
  apply updateCompanyTarget_keeps_ids_and_others. discriminate.
Defined.

(** *** Newsletter columns *)

Lemma column_eqb_eq (a b : NewsletterColumn) : column_eqb a b = true <-> a = b.
Proof.
  split.
  - destruct a, b; simpl; intros H; try reflexivity; discriminate.
  - intros ->. now destruct b.
Qed.

Lemma column_included (column : NewsletterColumn) (prev : list NewsletterColumn) :
  existsb (column_eqb column) prev = true <-> In column prev.
Proof.
  rewrite existsb_exists. split.
  - intros (x & Hx & E). apply column_eqb_eq in E. now subst.
  - intros H. exists column. split; [exact H|]. now apply column_eqb_eq.
Qed.

(** X17.  A toggle flips the presence of its column and of no other, and a
    selection without repeats stays without repeats. *)
Theorem toggleColumn_flips_one_column (column : NewsletterColumn)
    (prev : list NewsletterColumn) :
  (In column (toggleColumn column prev) <-> ~ In column prev)
  /\ (forall other, other <> column ->
                    (In other (toggleColumn column prev) <-> In other prev))
  /\ (NoDup prev -> NoDup (toggleColumn column prev)).
Proof.
  unfold toggleColumn.
  destruct (existsb (column_eqb column) prev) eqn:E.
  - apply column_included in E. split; [|split].
    + rewrite filter_In. split.
      * intros [_ H]. rewrite (proj2 (column_eqb_eq column column) eq_refl) in H.
        discriminate.
      * intros H. contradiction.
    + intros other Ho. rewrite filter_In. split; [now intros [H _]|].
      intros H. split; [exact H|].
      destruct (column_eqb other column) eqn:Eo; [|reflexivity].
      apply column_eqb_eq in Eo. contradiction.
    + intros H. now apply NoDup_filter.
  - assert (Hn : ~ In column prev).
    { intros H. apply column_included in H. congruence. }
    split; [|split].
    + rewrite in_app_iff. simpl. intuition.
    + intros other Ho. rewrite in_app_iff. simpl. intuition congruence.
    + intros H. apply NoDup_app; [exact H|repeat constructor; intros []|].
      intros x Hx [<-|[]]. contradiction.
Qed.

End HomeFacts.

(* ===================================================================== *)
(** ** The companies field of a keyword row *)
(* ===================================================================== *)

Module CompaniesFacts.

Import Home.

Lemma split_separators_nonempty (s : jsstring) : split_separators s <> [].
Proof.
  induction s as [|c s IH]; simpl; [discriminate|].
  destruct (isSeparator c).
  - destruct s as [|c' s']; [discriminate|].
    destruct (isSeparator c'); [exact IH|discriminate].
  - destruct (split_separators s); discriminate.
Qed.

(** No piece of a split holds a separator. *)
Lemma split_separators_free (s : jsstring) :
  Forall (fun piece => separatorFree piece = true) (split_separators s).
Proof.
  induction s as [|c s IH]; simpl.
  - repeat constructor.
  - destruct (isSeparator c) eqn:E.
    + destruct s as [|c' s']; [repeat constructor|].
      destruct (isSeparator c'); [exact IH|now constructor].
    + destruct (split_separators s) as [|piece more].
      * repeat constructor. simpl. now rewrite E.
      * inversion IH as [|? ? Hp Hm]; subst. constructor; [|exact Hm].
        simpl. now rewrite E.
Qed.

Lemma separatorFree_trimStart (s : jsstring) :
  separatorFree s = true -> separatorFree (trimStart s) = true.
Proof.
  induction s as [|c s IH]; simpl; [trivial|].
  intros H. destruct (isWhiteSpace c); [|exact H].
  apply andb_true_iff in H as [_ H]. now apply IH.
Qed.

Lemma separatorFree_rev (s : jsstring) : separatorFree (rev s) = separatorFree s.
Proof.
  unfold separatorFree. induction s as [|c s IH]; simpl; [reflexivity|].
  rewrite forallb_app, IH. simpl. rewrite andb_true_r. apply andb_comm.
Qed.

Lemma separatorFree_trim (s : jsstring) :
  separatorFree s = true -> separatorFree (trim s) = true.
Proof.
  intros H. unfold trim, trimEnd.
  rewrite separatorFree_rev. apply separatorFree_trimStart.
  rewrite separatorFree_rev. now apply separatorFree_trimStart.
Qed.

(** X18.  Whatever is typed into the companies field, the companies stored
    are well formed: none is empty, none has white space at either end, and
    none holds a comma or a semicolon. *)
Theorem parseCompanies_well_formed (value : jsstring) :
  Forall wellFormed (parseCompanies value).
Proof.
  unfold parseCompanies. apply Forall_forall. intros c Hc.
  apply filter_In in Hc as [Hc Hb].
  apply in_map_iff in Hc as (piece & <- & Hp).
  pose proof (split_separators_free value) as F.
  rewrite Forall_forall in F. specialize (F piece Hp).
  split; [|split].
  - intros E. rewrite E in Hb. discriminate.
  - apply FilterFacts.trim_idempotent.
  - now apply separatorFree_trim.
Qed.

(** *** The text of the field, read back *)

(** The pieces of the text of [c :: rest] followed by a tail whose own
    pieces are [tail]: the last company runs into the first piece of the
    tail, and every company after the first has the space of [", "] in
    front. *)
Fixpoint joined_pieces (c : jsstring) (rest tail : list jsstring)
    : list jsstring :=
  match rest with
  | [] => match tail with
          | piece :: more => (c ++ piece) :: more
          | [] => [c]
          end
  | d :: rest' => c :: joined_pieces (32%N :: d) rest' tail
  end.

Lemma split_separators_app (c rest : jsstring) :
  separatorFree c = true ->
  split_separators (c ++ rest)
  = match split_separators rest with
    | piece :: more => (c ++ piece) :: more
    | [] => [c]
    end.
Proof.
  induction c as [|x c IH]; intros H.
  - simpl. destruct (split_separators rest) eqn:E; [|reflexivity].
    now apply split_separators_nonempty in E.
  - simpl in H. apply andb_true_iff in H as [Hx Hc].
    apply negb_true_iff in Hx.
    change ((x :: c) ++ rest) with (x :: (c ++ rest)).
    cbn [split_separators]. rewrite Hx, (IH Hc).
    now destruct (split_separators rest).
Qed.

Lemma join_cons (c d : jsstring) (rest : list jsstring) :
  join (lit ", ") (c :: d :: rest) = c ++ 44%N :: 32%N :: join (lit ", ") (d :: rest).
Proof. reflexivity. Qed.

Lemma join_space (d : jsstring) (rest : list jsstring) :
  join (lit ", ") ((32%N :: d) :: rest) = 32%N :: join (lit ", ") (d :: rest).
Proof. now destruct rest. Qed.

Lemma split_join_tail (rest : list jsstring) :
  forall (c tail : jsstring),
    separatorFree c = true ->
    Forall (fun d => separatorFree d = true) rest ->
    split_separators (join (lit ", ") (c :: rest) ++ tail)
    = joined_pieces c rest (split_separators tail).
Proof.
  induction rest as [|d rest IH]; intros c tail Hc Hrest.
  - cbn [join joined_pieces]. now apply split_separators_app.
  - inversion Hrest as [|? ? Hd Hrest']; subst.
    rewrite join_cons. cbn [joined_pieces].
    rewrite <- app_assoc. rewrite (split_separators_app _ _ Hc).
    change ((44%N :: 32%N :: join (lit ", ") (d :: rest)) ++ tail)
      with (44%N :: (32%N :: join (lit ", ") (d :: rest)) ++ tail).
    change (split_separators (44%N :: (32%N :: join (lit ", ") (d :: rest)) ++ tail))
      with ([] :: split_separators ((32%N :: join (lit ", ") (d :: rest)) ++ tail)).
    cbv iota. rewrite app_nil_r. f_equal.
    rewrite <- join_space. apply IH; [exact Hd|exact Hrest'].
Qed.

Lemma trimStart_snoc (c : jsstring) (ws : code_unit) :
  isWhiteSpace ws = true ->
  trimStart (c ++ [ws]) = if blank c then [] else trimStart c ++ [ws].
Proof.
  intros H. induction c as [|x c IH]; simpl.
  - now rewrite H.
  - destruct (isWhiteSpace x); simpl; [exact IH|reflexivity].
Qed.

(** White space typed at the end of a string is trimmed away. *)
Lemma trim_snoc (c : jsstring) (ws : code_unit) :
  isWhiteSpace ws = true -> trim (c ++ [ws]) = trim c.
Proof.
  intros H. unfold trim. rewrite (trimStart_snoc c ws H).
  destruct (blank c) eqn:B.
  - now rewrite (trimStart_blank c B).
  - unfold trimEnd. rewrite rev_app_distr. simpl. now rewrite H.
Qed.

Lemma trim_space (d : jsstring) : trim (32%N :: d) = trim d.
Proof. reflexivity. Qed.

(** The three tails: nothing, one white space, one separator. *)
Definition harmless (tail : list jsstring) : Prop :=
  tail = [[]]
  \/ (exists ws, isWhiteSpace ws = true /\ tail = [[ws]])
  \/ tail = [[]; []].

Lemma parse_joined_pieces (rest : list jsstring) :
  forall (c : jsstring) (tail : list jsstring),
    trim c <> [] ->
    Forall wellFormed rest ->
    harmless tail ->
    filter String_Boolean (map trim (joined_pieces c rest tail))
    = trim c :: rest.
Proof.
  induction rest as [|d rest IH]; intros c tail Hc Hrest Ht.
  - cbn [joined_pieces].
    assert (B : String_Boolean (trim c) = true) by (now destruct (trim c)).
    destruct Ht as [->|[(ws & Hws & ->)| ->]]; cbn [map filter].
    + now rewrite app_nil_r, B.
    + now rewrite (trim_snoc c ws Hws), B.
    + now rewrite app_nil_r, B.
  - inversion Hrest as [|? ? (Hd1 & Hd2 & Hd3) Hrest']; subst.
    cbn [joined_pieces map filter].
    assert (B : String_Boolean (trim c) = true) by (now destruct (trim c)).
    rewrite B. f_equal.
    rewrite (IH (32%N :: d) tail); [ | | exact Hrest' | exact Ht ].
    + now rewrite trim_space, Hd2.
    + rewrite trim_space, Hd2. exact Hd1.
Qed.

Lemma whitespace_not_separator (c : code_unit) :
  isWhiteSpace c = true -> isSeparator c = false.
Proof.
  intros H. unfold isSeparator.
  destruct (N.eqb c 44) eqn:E1; [apply N.eqb_eq in E1; subst; discriminate|].
  destruct (N.eqb c 59) eqn:E2; [apply N.eqb_eq in E2; subst; discriminate|].
  reflexivity.
Qed.

(** The companies read back from their text followed by a harmless tail. *)
Lemma parseCompanies_text_tail (cs : list jsstring) (tail : jsstring) :
  Forall wellFormed cs ->
  harmless (split_separators tail) ->
  parseCompanies (join (lit ", ") cs ++ tail) = cs.
Proof.
  intros Hcs Ht. unfold parseCompanies. destruct cs as [|c rest].
  - cbn [join app].
    destruct Ht as [->|[(ws & Hws & ->)| ->]]; cbn [map filter].
    + reflexivity.
    + replace (trim [ws]) with (@nil code_unit); [reflexivity|].
      symmetry. apply trim_empty_iff_blank. simpl. now rewrite Hws.
    + reflexivity.
  - inversion Hcs as [|? ? (Hc1 & Hc2 & Hc3) Hrest]; subst.
    rewrite split_join_tail.
    + rewrite parse_joined_pieces; [now rewrite Hc2| |exact Hrest|exact Ht].
      now rewrite Hc2.
    + exact Hc3.
    + eapply Forall_impl; [|exact Hrest]. now intros d (_ & _ & H).
Qed.

(** X19.  The field shows the companies joined by [", "], and reading that
    text back gives the same companies, when they are well formed. *)
Theorem parseCompanies_reads_back_its_text (row : KeywordSourceRow)
    (cs : list jsstring) :
  companies row = Some cs ->
  Forall wellFormed cs ->
  parseCompanies (companiesText row) = cs.
Proof.
  intros E H. unfold companiesText. rewrite E.
  rewrite <- (app_nil_r (join (lit ", ") cs)).
  apply parseCompanies_text_tail; [exact H|]. now left.
Qed.

(** X20.  One comma, semicolon or white space typed at the end of the field
    is lost: the companies stored are those there were before the key. *)
Theorem parseCompanies_drops_typed_separator (row : KeywordSourceRow)
    (cs : list jsstring) (key : code_unit) :
  companies row = Some cs ->
  Forall wellFormed cs ->
  isSeparator key = true \/ isWhiteSpace key = true ->
  parseCompanies (companiesText row ++ [key]) = cs.
Proof.
  intros E H Hkey. unfold companiesText. rewrite E.
  apply parseCompanies_text_tail; [exact H|].
  destruct Hkey as [Hs|Hw].
  - right. right. simpl. now rewrite Hs.
  - right. left. exists key. split; [exact Hw|].
    simpl. now rewrite (whitespace_not_separator key Hw).
Qed.

Lemma sample_companies_well_formed :
  Forall wellFormed [ lit "Amgen"; lit "Samsung Bioepis" ].
Proof.
  repeat constructor; try discriminate; reflexivity.
Qed.

(** X19 on the first sample row. *)
Lemma parseCompanies_reads_back_sample :
  parseCompanies (lit "Amgen, Samsung Bioepis")
  = [ lit "Amgen"; lit "Samsung Bioepis" ].
Proof.
  apply (parseCompanies_reads_back_its_text
           {| keyword := lit "biosimilar approval"; row_sopCategory := None;
              row_businessCategory := None;
              companies := Some [ lit "Amgen"; lit "Samsung Bioepis" ] |}).
  - reflexivity.
  - exact sample_companies_well_formed.
Defined.

(** X20 on the first sample row: a comma typed after the last company. *)
Lemma parseCompanies_drops_typed_comma_sample :
  parseCompanies (lit "Amgen, Samsung Bioepis,")
  = [ lit "Amgen"; lit "Samsung Bioepis" ].
Proof.
  apply (parseCompanies_drops_typed_separator
           {| keyword := lit "biosimilar approval"; row_sopCategory := None;
              row_businessCategory := None;
              companies := Some [ lit "Amgen"; lit "Samsung Bioepis" ] |}
           [ lit "Amgen"; lit "Samsung Bioepis" ] 44%N).
  - reflexivity.
  - exact sample_companies_well_formed.
  - left. reflexivity.
Defined.

End CompaniesFacts.

(** [split] on the edge cases of JavaScript: a separator run at either end
    leaves an empty piece, and the empty string is one empty piece. *)
Example split_separators_edges :
  Home.split_separators (lit "a,;b") = [ lit "a"; lit "b" ]
  /\ Home.split_separators (lit ",a") = [ lit ""; lit "a" ]
  /\ Home.split_separators (lit "a,") = [ lit "a"; lit "" ]
  /\ Home.split_separators (lit ",;") = [ lit ""; lit "" ]
  /\ Home.split_separators (lit "") = [ lit "" ].
Proof. repeat split; reflexivity. Qed.

Example parseCompanies_untidy :
  Home.parseCompanies (lit " Amgen ; , Sandoz,,") = [ lit "Amgen"; lit "Sandoz" ].
Proof. reflexivity. Qed.

(* ===================================================================== *)
(** ** A search, from the button to the state *)
(* ===================================================================== *)

Module SearchFacts.

Import Route Page Home.

(** X21.  However the network behaves, a search ends with the loading flag
    down and the inputs untouched; it either succeeds, with no error, the
    time of the run and the results of an [ok] response, or fails, with the
    one error message and the results and time of the run there were. *)
Theorem handleSearch_settles (fetch : json -> outcome Response) (now : Z)
    (s0 : SearchState) :
  isLoading (handleSearch fetch now s0) = false
  /\ keywordRows (handleSearch fetch now s0) = keywordRows s0
  /\ targets (handleSearch fetch now s0) = targets s0
  /\ range (handleSearch fetch now s0) = range s0
  /\ cap (handleSearch fetch now s0) = cap s0
  /\ ((error (handleSearch fetch now s0) = None
       /\ lastRun (handleSearch fetch now s0) = Some now
       /\ exists response,
            fetch (searchBody s0) = Returned response
            /\ ok response = true
            /\ results (handleSearch fetch now s0)
               = payload_results (body response))
      \/ (error (handleSearch fetch now s0) = Some retrieve_message
          /\ results (handleSearch fetch now s0) = results s0
          /\ lastRun (handleSearch fetch now s0) = lastRun s0)).
Proof.
  unfold handleSearch.
  destruct (fetch (searchBody s0)) as [response|e] eqn:F.
  - destruct (ok response) eqn:O; cbn; repeat (split; [reflexivity|]).
    + left. repeat (split; [reflexivity|]). now exists response.
    + right. now repeat split.
  - cbn. repeat (split; [reflexivity|]). right. now repeat split.
Qed.

(** The arguments the pipeline gets for a search from the state [s]. *)
Definition searchPayload (s : SearchState) : SearchPayload :=
  {| keywords := keywordRows s; companyTargets := targets s;
     timeRange := range s; maxItems := Some (cap s) |}.

(** X22.  A search served by [POST]: the pipeline gets the rows and targets
    that are not blank, the range, and the cap of the page as it is (the
    default of 100 never applies); its result list becomes the results, and
    when it throws the results there were stay under the error message. *)
Theorem handleSearch_served_by_POST gatherNews (now : Z) (s0 : SearchState) :
  match gatherNews
          (map json_of_KeywordSourceRow (nonBlankKeywords (searchPayload s0)))
          (map json_of_CompanyTarget (nonBlankTargets (searchPayload s0)))
          (Some (json_of_TimeRangeOption (range s0)))
          (JNumber (cap s0))
  with
  | Returned rs =>
      handleSearch (served gatherNews) now s0
      = setIsLoading false
          (setLastRun (Some now) (setResults (Some rs) (setError None s0)))
  | Thrown _ =>
      handleSearch (served gatherNews) now s0
      = setIsLoading false (setError (Some retrieve_message) s0)
  end.
Proof.
  unfold handleSearch, served.
  change {| request_json := Returned (searchBody s0) |}
    with (request_of (searchPayload s0)).
  rewrite RouteFacts.run_POST_typed.
  cbn [maxItems searchPayload timeRange].
  destruct (gatherNews _ _ _ _) as [rs|e]; reflexivity.
Qed.

(** X23.  What [Add Keyword] and [Add Company Target] add, as the server
    sees it: the placeholder keyword row is passed to the pipeline like any
    other row, the new target, whose URL is empty, is not passed at all. *)
Theorem fresh_rows_at_the_pipeline gatherNews (newId : jsstring)
    (p : SearchPayload) :
  map (fun call => (call_keywords call, call_companyTargets call))
      (pipeline_calls
         (snd (run_POST gatherNews
                 (request_of
                    {| keywords := addKeyword (keywords p);
                       companyTargets := addCompanyTarget newId (companyTargets p);
                       timeRange := timeRange p;
                       maxItems := maxItems p |}))))
  = [ (map json_of_KeywordSourceRow (nonBlankKeywords p)
         ++ [ json_of_KeywordSourceRow newKeywordRow ],
       map json_of_CompanyTarget (nonBlankTargets p)) ].
Proof.
  set (q := {| keywords := addKeyword (keywords p);
               companyTargets := addCompanyTarget newId (companyTargets p);
               timeRange := timeRange p;
               maxItems := maxItems p |}).
  assert (K : nonBlankKeywords q = nonBlankKeywords p ++ [newKeywordRow]).
  { unfold nonBlankKeywords, q, addKeyword. cbn [keywords].
    now rewrite filter_app. }
  assert (T : nonBlankTargets q = nonBlankTargets p).
  { unfold nonBlankTargets, q, addCompanyTarget. cbn [companyTargets].
    rewrite filter_app. cbn [filter url].
    change (negb (blank (lit ""))) with false. cbn iota.
    apply app_nil_r. }
  rewrite RouteFacts.run_POST_typed.
  destruct (gatherNews _ _ _ _); unfold expected_call;
    cbn [snd pipeline_calls map call_keywords call_companyTargets];
    now rewrite K, T, map_app.
Qed.

(** X24.  The rows of an uploaded workbook all reach the pipeline: the
    filter of the handler removes none of them, since [parseWorkbook] has
    already dropped the rows whose keyword is blank. *)
Theorem parseWorkbook_rows_pass_the_handler gatherNews {SheetRow : Type}
    (normalizeKeywordRow : SheetRow -> KeywordSourceRow)
    (sheet : list SheetRow) (tgs : list CompanyTarget)
    (r : TimeRangeOption) (m : option Z) :
  map call_keywords
      (pipeline_calls
         (snd (run_POST gatherNews
                 (request_of
                    {| keywords := parseWorkbook_rows normalizeKeywordRow sheet;
                       companyTargets := tgs;
                       timeRange := r;
                       maxItems := m |}))))
  = [ map json_of_KeywordSourceRow
          (parseWorkbook_rows normalizeKeywordRow sheet) ].
Proof.
  rewrite RouteFacts.run_POST_typed.
  assert (E : filter (fun kw => negb (blank (keyword kw)))
                     (parseWorkbook_rows normalizeKeywordRow sheet)
              = parseWorkbook_rows normalizeKeywordRow sheet).
  { unfold parseWorkbook_rows.
    induction (map normalizeKeywordRow sheet) as [|row rows IH];
      [reflexivity|].
    simpl. rewrite trim_length_pos.
    destruct (negb (blank (keyword row))) eqn:B; [|exact IH].
    simpl. now rewrite B, IH. }
  destruct (gatherNews _ _ _ _); unfold expected_call, nonBlankKeywords;
    cbn [snd pipeline_calls map call_keywords keywords]; now rewrite E.
Qed.

End SearchFacts.

(* ===================================================================== *)
(** ** Samples for the filter facts *)
(* ===================================================================== *)

Module FilterSamples.

Import Page Home.

(** X6 on the sample: no date parses, the 24-hour window drops nothing. *)
Lemma keeps_unparsed_date_sample :
  keeps (fun s => s) (fun _ => None) (withTimeWindow Window24h EMPTY_FILTERS)
        0 (sampleItem "a" 80 40)
  = keeps (fun s => s) (fun _ => None) (withTimeWindow WindowAll EMPTY_FILTERS)
          0 (sampleItem "a" 80 40).
Proof.
  apply FilterFacts.keeps_unparsed_or_future_date. exact I.
Defined.

(** X11 on the sample, with a company among the matches of its items. *)
Lemma company_option_shows_a_result_sample :
  filteredResults (fun s => s) (fun _ => None) (fun _ => 0%Z)
    (withCompany (lit "Amgen") EMPTY_FILTERS)
    [ {| id := lit "n1"; title := lit "Launch"; source := lit "FDA";
         item_url := lit "https://example.org/n1";
         publishedAt := lit "2024-01-01T00:00:00.000Z"; summary := lit "";
         authenticScore := 80; marketImpactScore := 40;
         keywordMatches := []; companyMatches := [ lit "Amgen" ];
         sopCategory := None; businessCategory := None |} ]
  <> [].
Proof.
  apply OptionFacts.company_option_shows_a_result.
  - vm_compute. left. reflexivity.
  - repeat constructor; simpl; lia.
Defined.

End FilterSamples.
